(** * import_statistics: the CSV-to-statistics transformation

    A shallow embedding of
    [custom_components/import_statistics/prepare_data.py] and of the
    constants of [const.py], followed by the properties of the
    transformation.

    Python exceptions are an error monad ([result]); the calls of
    [pandas.read_csv] made by [prepare_data_to_import] are recorded in a
    trace ([IO]), so that "which parse ran" can be stated.  The interpreter's
    surroundings (file system, time-zone database, the CSV parser) are the
    class [World]; the functions of [helpers.py], which [prepare_data.py]
    only calls, are the classes [Helpers] and [StatHelpers]. *)

From Stdlib Require Import QArith Ascii.
From stdpp Require Import gmap strings list fin_maps pretty.
Close Scope Q_scope.
Open Scope string_scope.

(** ** Python values, exceptions, results *)

(** The values that occur in service-call data and in data-frame cells. *)
Inductive PyVal :=
| PNone
| PBool (b : bool)
| PStr (s : string)
| PInt (z : Z)
| PFloat (q : Q)
| PNaN.

(** Truth value, as used by [x or y] and by [... if x else ...]. *)
Definition py_truthy (v : PyVal) : bool :=
  match v with
  | PNone => false
  | PBool b => b
  | PStr s => negb (String.eqb s "")
  | PInt z => negb (Z.eqb z 0)
  | PFloat q => negb (Z.eqb (Qnum q) 0)
  | PNaN => true
  end.

(** [a or b] *)
Definition py_or (a b : PyVal) : PyVal := if py_truthy a then a else b.

(** [x is True] *)
Definition is_True (v : PyVal) : bool :=
  match v with PBool true => true | _ => false end.

Inductive Exn :=
| HomeAssistantError (msg : string)
| KeyError (key : string)
| TypeError
| ValueError (msg : string)
| ParserError (msg : string)
| ZoneInfoNotFoundError (key : string).

Inductive result (A : Type) :=
| Ok (a : A)
| Err (e : Exn).
Arguments Ok {A} a.
Arguments Err {A} e.

#[global] Instance result_ret : MRet result := @Ok.
#[global] Instance result_bind : MBind result :=
  λ A B f m, match m with Ok a => f a | Err e => Err e end.

Definition is_Ok {A} (r : result A) : Prop := ∃ a, r = Ok a.
Definition is_Err {A} (r : result A) : Prop := ∃ e, r = Err e.

(** Monadic left fold: a [for] loop whose body may raise. *)
Fixpoint foldlM {A B} (f : A → B → result A) (a : A) (l : list B) : result A :=
  match l with
  | [] => Ok a
  | b :: l => a' ← f a b; foldlM f a' l
  end.

(** ** const.py *)

Definition ATTR_TIMEZONE_IDENTIFIER := "timezone_identifier".
Definition ATTR_DELIMITER := "delimiter".
Definition ATTR_DECIMAL := "decimal".
Definition ATTR_DATETIME_FORMAT := "datetime_format".
Definition ATTR_UNIT_FROM_ENTITY := "unit_from_entity".
Definition ATTR_STAT_ID_CONSUMPTION := "statistic_id_consumption".
Definition ATTR_STAT_ID_SUPPLY := "statistic_id_supply".
Definition ATTR_UNIT_CONSUMPTION := "unit_consumption".
Definition ATTR_UNIT_SUPPLY := "unit_supply".
Definition CSV_COL_DATETIME := "Dátum a čas merania".
Definition CSV_COL_CONSUMPTION := "1.5.0 - Činný odber (kW)".
Definition CSV_COL_SUPPLY := "2.5.0 - Činná dodávka (kW)".
Definition DATETIME_DEFAULT_FORMAT := "%d.%m.%Y %H:%M".

(** ** Data model *)

(** [homeassistant.core.ServiceCall], of which only [call.data] is read. *)
Record ServiceCall := { data : gmap string PyVal }.

(** [call.data.get(key, default)] *)
Definition data_get (call : ServiceCall) (key : string) (default : PyVal) : PyVal :=
  match data call !! key with
  | Some v => v
  | None => default
  end.

(** A row of a data frame ([pandas.Series]) or a plain dict with the same
    keys: labels with their values, in column order. *)
Definition Row := list (string * PyVal).

Fixpoint row_lookup (row : Row) (key : string) : option PyVal :=
  match row with
  | [] => None
  | (k, v) :: row => if String.eqb k key then Some v else row_lookup row key
  end.

(** [row[key]] *)
Definition row_getitem (row : Row) (key : string) : result PyVal :=
  match row_lookup row key with
  | Some v => Ok v
  | None => Err (KeyError key)
  end.

(** [row.get(key, default)] *)
Definition row_get (row : Row) (key : string) (default : PyVal) : PyVal :=
  match row_lookup row key with
  | Some v => v
  | None => default
  end.

Record DataFrame := { columns : list string; rows : list Row }.

(** [zoneinfo.ZoneInfo]: a zone is known by its key. *)
Record ZoneInfo := { zone_key : string }.

Record NaiveDateTime :=
  { year : Z; month : Z; day : Z; hour : Z; minute : Z }.

(** A parsed wall-clock time with the zone attached
    ([datetime.replace(tzinfo=...)]). *)
Record Instant := { naive : NaiveDateTime; tzinfo : ZoneInfo }.

(** What [helpers.get_mean_stat] and [helpers.get_sum_stat] return. *)
Inductive StatisticPoint :=
| MeanPoint (start : Instant) (mean : PyVal)
| SumPoint (start : Instant) (sum : PyVal).

(** Modelled from the spec: [helpers.UnitFrom] is not part of the sources
    at hand; the unit source is one of FROM_SOURCE_SYSTEM ([ENTITY]) and
    FROM_TABLE ([TABLE]). *)
Inductive UnitFrom := ENTITY | TABLE.

(** The metadata dict built for every series. *)
Record Metadata := {
  has_mean : bool;
  has_sum : bool;
  source : string;
  statistic_id : string;
  name : option string;
  unit_of_measurement : PyVal;
}.

(** The result dict: series identifier to (metadata, points). *)
Abbreviation Stats := (gmap string (Metadata * list StatisticPoint)).

(** ** The surroundings of the interpreter *)

(** What the code asks of the outside world.  [zone_exists key] tells
    whether the time-zone database has the zone, and [zone_error key] is the
    exception [zoneinfo] raises for a key that names no zone (a [ValueError]
    for a malformed key, [ZoneInfoNotFoundError] for an unknown one).
    [read_table path sep decimal] is the table [pandas.read_csv] builds
    from the whole file (header and rows) or the exception it raises;
    [read_usecols path sep decimal usecols] is what the parser restricted to
    the columns [usecols] gives for a file that the unrestricted parser
    rejects (with [usecols] the parser does not check the number of fields
    of a row).  [float_repr] and [set_repr] are the renderings of a float
    and of a set of strings inside an f-string. *)
Class World := {
  path_exists : string → bool;
  zone_exists : string → bool;
  zone_error : string → Exn;
  read_table : string → PyVal → PyVal → result DataFrame;
  read_usecols : string → PyVal → PyVal → list string → result DataFrame;
  float_repr : Q → string;
  set_repr : list string → string;
}.

(** [helpers.py] is called by [prepare_data.py] but is not part of the
    sources at hand: its functions are parameters.  Each of them may
    raise. *)
Class Helpers := {
  are_columns_valid : DataFrame → UnitFrom → result bool;
  get_source : string → result string;
  add_unit_to_dataframe : string → UnitFrom → PyVal → string → result PyVal;
}.

Class StatHelpers := {
  get_mean_stat : Row → ZoneInfo → PyVal → result StatisticPoint;
  get_sum_stat : Row → ZoneInfo → PyVal → result StatisticPoint;
}.

(** Modelled from the spec: [helpers.handle_error] is not part of the
    sources at hand.  It is the single error-signalling mechanism: it raises
    with the given message and never returns (the docstring of
    [handle_dataframe] says the same: "Raises: ImplementationError via
    helpers.handle_error"). *)
Definition handle_error {A} (error_string : string) : result A :=
  Err (HomeAssistantError error_string).

(** ** Traced input *)

(** One event per call of [pandas.read_csv]: path, [sep], [decimal] and
    [usecols]. *)
Inductive Event :=
| ReadCsv (path : string) (sep decimal : PyVal) (usecols : option (list string)).

(** A computation that may raise and that leaves a trace of the parses it
    started; the trace survives an exception. *)
Definition IO (A : Type) : Type := list Event * result A.

#[global] Instance IO_ret : MRet IO := λ A a, ([], Ok a).
#[global] Instance IO_bind : MBind IO :=
  λ A B f m,
    match m with
    | (t, Ok a) => let '(t', r) := f a in (app t t', r)
    | (t, Err e) => (t, Err e)
    end.

(** A pure computation inside [IO]. *)
Definition lift {A} (r : result A) : IO A := ([], r).

(** [try: body except Exception as exc: handler(exc)], where the body
    returns on success and the handler's code is what follows the [try]
    statement.  Every exception of the model is an [Exception]. *)
Definition try_except {A} (body : IO A) (handler : Exn → IO A) : IO A :=
  match body with
  | (t, Ok a) => (t, Ok a)
  | (t, Err exc) => let '(t', r) := handler exc in (app t t', r)
  end.

(** ** pandas *)

(** Keep the columns named in [usecols], in the order of the file. *)
Definition select_columns (usecols : list string) (df : DataFrame) : DataFrame :=
  {| columns := filter (λ c, c ∈ usecols) (columns df);
     rows := map (filter (λ kv : string * PyVal, kv.1 ∈ usecols)) (rows df) |}.

(** [pandas.read_csv(path, sep=.., decimal=.., engine=.. [, quotechar=..,
    usecols=..])].  The quote character given in the first call is pandas'
    default one.  Without [usecols] the result is the table of the whole
    file.  With [usecols], on a file the unrestricted parser reads: a name
    missing from the header is a [ValueError], otherwise the other columns
    are dropped; on a file the unrestricted parser rejects, the restricted
    parse is the parser's own ([read_usecols]). *)
Definition read_csv `{W : World} (path : string) (sep decimal : PyVal)
    (usecols : option (list string)) : IO DataFrame :=
  ([ReadCsv path sep decimal usecols],
   match usecols with
   | None => read_table path sep decimal
   | Some cols =>
       match read_table path sep decimal with
       | Ok df =>
           if forallb (λ c, bool_decide (c ∈ columns df)) cols
           then Ok (select_columns cols df)
           else Err (ValueError "Usecols do not match columns")
       | Err _ => read_usecols path sep decimal cols
       end
   end).

Fixpoint rename_label (mapping : list (string * string)) (c : string) : string :=
  match mapping with
  | [] => c
  | (old, new) :: mapping => if String.eqb old c then new else rename_label mapping c
  end.

(** [df.rename(columns=mapping)] *)
Definition rename (mapping : list (string * string)) (df : DataFrame) : DataFrame :=
  {| columns := map (rename_label mapping) (columns df);
     rows := map (map (λ kv : string * PyVal, (rename_label mapping kv.1, kv.2))) (rows df) |}.

(** ** zoneinfo and string formatting *)

(** [zoneinfo.ZoneInfo(key)] *)
Definition ZoneInfo_new `{W : World} (v : PyVal) : result ZoneInfo :=
  match v with
  | PStr s => if zone_exists s then Ok {| zone_key := s |}
              else Err (zone_error s)
  | _ => Err TypeError
  end.

Definition Z_repr (z : Z) : string :=
  match z with
  | Z0 => "0"
  | Zpos p => pretty (Npos p)
  | Zneg p => "-" ++ pretty (Npos p)
  end.

(** [f"{v}"] *)
Definition py_str `{W : World} (v : PyVal) : string :=
  match v with
  | PNone => "None"
  | PBool true => "True"
  | PBool false => "False"
  | PStr s => s
  | PInt z => Z_repr z
  | PFloat q => float_repr q
  | PNaN => "nan"
  end.

(** A series identifier is text ([stat_id: str]); [helpers.get_source] is
    where a value of another type is first used as text. *)
Definition as_str (v : PyVal) : result string :=
  match v with
  | PStr s => Ok s
  | _ => Err TypeError
  end.

(** ** prepare_data.py *)

Section PrepareData.
Context `{W : World} `{H : Helpers} `{S : StatHelpers}.

(** [handle_arguments(file_path, call)]: the tuple (decimal,
    timezone_identifier, delimiter, datetime_format, unit_from_entity).
    The logging calls have no effect on the result and are left out. *)
Definition handle_arguments (file_path : string) (call : ServiceCall)
    : result (PyVal * PyVal * PyVal * PyVal * UnitFrom) :=
  let decimal :=
    if py_truthy (data_get call ATTR_DECIMAL (PBool true)) then PStr "," else PStr "." in
  let datetime_format :=
    data_get call ATTR_DATETIME_FORMAT (PStr DATETIME_DEFAULT_FORMAT) in
  let unit_from_entity :=
    if is_True (data_get call ATTR_UNIT_FROM_ENTITY PNone) then ENTITY else TABLE in
  let delimiter := data_get call ATTR_DELIMITER PNone in
  _ ← (if negb (path_exists file_path)
       then handle_error ("path " ++ file_path ++ " does not exist.")
       else Ok ());
  let timezone_identifier := data_get call ATTR_TIMEZONE_IDENTIFIER PNone in
  _ ← match ZoneInfo_new timezone_identifier with
      | Ok _ => Ok ()
      | Err _ =>
          handle_error ("Invalid timezone_identifier: " ++ py_str timezone_identifier)
      end;
  Ok (decimal, timezone_identifier, delimiter, datetime_format, unit_from_entity).

(** [stats[statistic_id][1].append(new_stat)] *)
Definition append_stat (statistic_id : string) (new_stat : StatisticPoint)
    (stats : Stats) : result Stats :=
  match stats !! statistic_id with
  | Some (metadata, points) =>
      Ok (<[statistic_id := (metadata, (points ++ [new_stat])%list)]> stats)
  | None => Err (KeyError statistic_id)
  end.

(** The body of the loop of [handle_dataframe] (one row). *)
Definition handle_dataframe_row (has_mean has_sum : bool) (timezone : ZoneInfo)
    (datetime_format : PyVal) (unit_from_where : UnitFrom)
    (stats : Stats) (row : Row) : result Stats :=
  cell ← row_getitem row "statistic_id";
  statistic_id ← as_str cell;
  stats ← match stats !! statistic_id with
          | Some _ => Ok stats
          | None =>
              source ← get_source statistic_id;
              unit ← add_unit_to_dataframe source unit_from_where
                       (row_get row "unit" (PStr "")) statistic_id;
              let metadata :=
                {| has_mean := has_mean;
                   has_sum := has_sum;
                   source := source;
                   statistic_id := statistic_id;
                   name := None;
                   unit_of_measurement := unit |} in
              Ok (<[statistic_id := (metadata, [])]> stats)
          end;
  new_stat ← (if has_mean
              then get_mean_stat row timezone datetime_format
              else get_sum_stat row timezone datetime_format);
  append_stat statistic_id new_stat stats.

(** [handle_dataframe(df, timezone_identifier, datetime_format,
    unit_from_where)] *)
Definition handle_dataframe (df : DataFrame) (timezone_identifier : PyVal)
    (datetime_format : PyVal) (unit_from_where : UnitFrom) : result Stats :=
  let columns := columns df in
  valid ← are_columns_valid df unit_from_where;
  _ ← (if negb valid
       then handle_error
              ("Implementation error. helpers.are_columns_valid returned false, "
               ++ "this should never happen, "
               ++ "because helpers.are_columns_valid throws an exception!")
       else Ok ());
  let has_mean := bool_decide ("mean" ∈ columns) in
  let has_sum := bool_decide ("sum" ∈ columns) in
  _ ← (if has_mean && has_sum
       then handle_error "Implementation error: both 'mean' and 'sum' columns are present."
       else Ok ());
  _ ← (if negb has_mean && negb has_sum
       then handle_error "Input must contain either a 'mean' or a 'sum' column."
       else Ok ());
  timezone ← ZoneInfo_new timezone_identifier;
  foldlM (handle_dataframe_row has_mean has_sum timezone datetime_format unit_from_where)
         ∅ (rows df).

(** The body of the first loop of [handle_dataframe_bdf]: one series with
    its metadata and no points. *)
Definition bdf_create_series (unit_from_where : UnitFrom) (stats : Stats)
    (item : string * PyVal) : result Stats :=
  let '(stat_id, unit_hint) := item in
  source ← get_source stat_id;
  unit ← add_unit_to_dataframe source unit_from_where unit_hint stat_id;
  let metadata :=
    {| has_mean := false;
       has_sum := true;
       source := source;
       statistic_id := stat_id;
       name := None;
       unit_of_measurement := unit |} in
  Ok (<[stat_id := (metadata, [])]> stats).

(** The body of the second loop of [handle_dataframe_bdf] (one row). *)
Definition bdf_fill_row (tz : ZoneInfo) (datetime_format : PyVal)
    (stat_id_consumption stat_id_supply : string)
    (stats : Stats) (row : Row) : result Stats :=
  start ← row_getitem row "start";
  consumption ← row_getitem row "consumption";
  let cons_row : Row := [("start", start); ("sum", consumption)] in
  cons_stat ← get_sum_stat cons_row tz datetime_format;
  stats ← append_stat stat_id_consumption cons_stat stats;
  start ← row_getitem row "start";
  supply ← row_getitem row "supply";
  let supp_row : Row := [("start", start); ("sum", supply)] in
  supp_stat ← get_sum_stat supp_row tz datetime_format;
  append_stat stat_id_supply supp_stat stats.

(** [handle_dataframe_bdf(df, timezone_identifier, datetime_format,
    unit_from_where, stat_id_consumption, stat_id_supply, unit_consumption,
    unit_supply)] *)
Definition handle_dataframe_bdf (df : DataFrame) (timezone_identifier : PyVal)
    (datetime_format : PyVal) (unit_from_where : UnitFrom)
    (stat_id_consumption stat_id_supply : string)
    (unit_consumption unit_supply : PyVal) : result Stats :=
  let required := ["start"; "consumption"; "supply"] in
  _ ← (if negb (forallb (λ c, bool_decide (c ∈ columns df)) required)
       then handle_error
              ("Missing required columns: "
               ++ set_repr (filter (λ c, c ∉ columns df) required))
       else Ok ());
  tz ← ZoneInfo_new timezone_identifier;
  stats ← foldlM (bdf_create_series unit_from_where) ∅
            [(stat_id_consumption, unit_consumption);
             (stat_id_supply, unit_supply)];
  foldlM (bdf_fill_row tz datetime_format stat_id_consumption stat_id_supply)
         stats (rows df).

(** The three columns the supplier layout is recognised by. *)
Definition BDF_USECOLS : list string :=
  [CSV_COL_DATETIME; CSV_COL_CONSUMPTION; CSV_COL_SUPPLY].

(** The body of the [try] statement of [prepare_data_to_import]. *)
Definition try_bdf_mode (file_path : string) (call : ServiceCall)
    (decimal timezone_identifier delimiter datetime_format : PyVal)
    (unit_from_entity : UnitFrom) : IO (Stats * UnitFrom) :=
  raw_df ← read_csv file_path delimiter decimal (Some BDF_USECOLS);
  let bdf_df := rename [(CSV_COL_DATETIME, "start");
                        (CSV_COL_CONSUMPTION, "consumption");
                        (CSV_COL_SUPPLY, "supply")] raw_df in
  stats ← lift (
    stat_id_consumption ←
      as_str (data_get call ATTR_STAT_ID_CONSUMPTION (PStr "sensor.energy_consumption"));
    stat_id_supply ←
      as_str (data_get call ATTR_STAT_ID_SUPPLY (PStr "sensor.energy_supply"));
    handle_dataframe_bdf bdf_df timezone_identifier datetime_format unit_from_entity
      stat_id_consumption stat_id_supply
      (data_get call ATTR_UNIT_CONSUMPTION (PStr ""))
      (data_get call ATTR_UNIT_SUPPLY (PStr "")));
  mret (stats, unit_from_entity).

(** What follows the [try] statement of [prepare_data_to_import]: the
    original behaviour. *)
Definition fallback_mode (file_path : string)
    (decimal timezone_identifier delimiter datetime_format : PyVal)
    (unit_from_entity : UnitFrom) : IO (Stats * UnitFrom) :=
  my_df ← read_csv file_path delimiter decimal None;
  stats ← lift (handle_dataframe my_df timezone_identifier datetime_format unit_from_entity);
  mret (stats, unit_from_entity).

(** [prepare_data_to_import(file_path, call)] *)
Definition prepare_data_to_import (file_path : string) (call : ServiceCall)
    : IO (Stats * UnitFrom) :=
  '(decimal, timezone_identifier, delimiter, datetime_format, unit_from_entity)
    ← lift (handle_arguments file_path call);
  let delimiter := py_or delimiter (PStr ";") in
  let decimal := py_or decimal (PStr ",") in
  try_except
    (try_bdf_mode file_path call decimal timezone_identifier delimiter
       datetime_format unit_from_entity)
    (λ exc, fallback_mode file_path decimal timezone_identifier delimiter
              datetime_format unit_from_entity).

End PrepareData.

(** ** The helpers, as the specification describes them *)

Section SpecHelpers.
(** [datetime.strptime(text, format)], and the unit the source system has
    registered for an entity. *)
Variable strptime : string → string → option NaiveDateTime.
Variable entity_unit : string → option string.

(** Modelled from the spec: the timestamp normalisation done inside
    [helpers.get_mean_stat] and [helpers.get_sum_stat], which are not part
    of the sources at hand.  The raw text is parsed strictly against the
    datetime format and the zone is attached; a malformed timestamp is a
    parsing failure. *)
Definition parse_timestamp (start : PyVal) (timezone : ZoneInfo)
    (datetime_format : PyVal) : result Instant :=
  match start, datetime_format with
  | PStr text, PStr format =>
      match strptime text format with
      | Some dt => Ok {| naive := dt; tzinfo := timezone |}
      | None => Err (ValueError "time data does not match format")
      end
  | _, _ => Err TypeError
  end.

(** Modelled from the spec: a malformed number is a row-level failure of
    the helper that builds the point. *)
Definition parse_number (v : PyVal) : result PyVal :=
  match v with
  | PInt _ | PFloat _ => Ok v
  | _ => Err (ValueError "not a valid float")
  end.

(** Modelled from the spec: [helpers.get_mean_stat] builds a mean point
    {timestamp, mean value} from the row's [start] and [mean] fields. *)
Definition get_mean_stat_spec (row : Row) (timezone : ZoneInfo)
    (datetime_format : PyVal) : result StatisticPoint :=
  start ← row_getitem row "start";
  instant ← parse_timestamp start timezone datetime_format;
  value ← row_getitem row "mean";
  mean ← parse_number value;
  Ok (MeanPoint instant mean).

(** Modelled from the spec: [helpers.get_sum_stat] builds a sum point
    {timestamp, cumulative value} from the row's [start] and [sum]
    fields. *)
Definition get_sum_stat_spec (row : Row) (timezone : ZoneInfo)
    (datetime_format : PyVal) : result StatisticPoint :=
  start ← row_getitem row "start";
  instant ← parse_timestamp start timezone datetime_format;
  value ← row_getitem row "sum";
  sum ← parse_number value;
  Ok (SumPoint instant sum).

(** Modelled from the spec: [helpers.are_columns_valid] is not part of the
    sources at hand.  The generic layout requires a [statistic_id] column
    and a [start] column; the helper raises instead of returning false (as
    the message in [handle_dataframe] says). *)
Definition are_columns_valid_spec (df : DataFrame) (unit_from_where : UnitFrom)
    : result bool :=
  if bool_decide ("statistic_id" ∈ columns df) && bool_decide ("start" ∈ columns df)
  then Ok true
  else handle_error "The file must contain the columns 'statistic_id' and 'start'".

Fixpoint before_separator (s : string) : string :=
  match s with
  | EmptyString => EmptyString
  | String c s => if Ascii.eqb c "."%char then EmptyString
                  else String c (before_separator s)
  end.

(** Modelled from the spec: [helpers.get_source] is not part of the sources
    at hand.  The source tag is the portion of the identifier before its
    first separator. *)
Definition get_source_spec (statistic_id : string) : result string :=
  Ok (before_separator statistic_id).

(** Modelled from the spec: [helpers.add_unit_to_dataframe] is not part of
    the sources at hand.  With the unit from the source system the unit is
    looked up by the series identifier, and a failed lookup is fatal; with
    the unit from the table the hint is taken verbatim. *)
Definition add_unit_to_dataframe_spec (source : string) (unit_from_where : UnitFrom)
    (unit_hint : PyVal) (statistic_id : string) : result PyVal :=
  match unit_from_where with
  | ENTITY =>
      match entity_unit statistic_id with
      | Some u => Ok (PStr u)
      | None => handle_error ("Entity does not exist: " ++ statistic_id)
      end
  | TABLE => Ok unit_hint
  end.

Definition spec_helpers : Helpers :=
  {| are_columns_valid := are_columns_valid_spec;
     get_source := get_source_spec;
     add_unit_to_dataframe := add_unit_to_dataframe_spec |}.

Definition spec_stat_helpers : StatHelpers :=
  {| get_mean_stat := get_mean_stat_spec;
     get_sum_stat := get_sum_stat_spec |}.

End SpecHelpers.

(** ** A small world to run the model in *)

Module Sample.

Definition digit (c : ascii) : option Z :=
  let n := Z.of_nat (nat_of_ascii c) in
  if (48 <=? n)%Z && (n <=? 57)%Z then Some (n - 48)%Z else None.

Fixpoint number (acc : Z) (cs : list ascii) : option Z :=
  match cs with
  | [] => Some acc
  | c :: cs => d ← digit c; number (10 * acc + d)%Z cs
  end.

Definition in_range (lo hi v : Z) : option Z :=
  if (lo <=? v)%Z && (v <=? hi)%Z then Some v else None.

(** A parser for the default pattern only, with fields of fixed width
    (two-digit day, month, hour and minute, four-digit year). *)
Definition strptime (text format : string) : option NaiveDateTime :=
  if negb (String.eqb format DATETIME_DEFAULT_FORMAT) then None else
  match String.list_ascii_of_string text with
  | [d1; d2; p1; m1; m2; p2; y1; y2; y3; y4; sp; h1; h2; co; n1; n2] =>
      if Ascii.eqb p1 "."%char && Ascii.eqb p2 "."%char
         && Ascii.eqb sp " "%char && Ascii.eqb co ":"%char
      then
        d ← number 0 [d1; d2] ≫= in_range 1 31;
        m ← number 0 [m1; m2] ≫= in_range 1 12;
        y ← number 0 [y1; y2; y3; y4] ≫= in_range 1 9999;
        h ← number 0 [h1; h2] ≫= in_range 0 23;
        n ← number 0 [n1; n2] ≫= in_range 0 59;
        Some {| year := y; month := m; day := d; hour := h; minute := n |}
      else None
  | _ => None
  end.

(** No entity is registered. *)
Definition entity_unit (statistic_id : string) : option string := None.

Definition helpers : Helpers := spec_helpers entity_unit.
Definition stat_helpers : StatHelpers := spec_stat_helpers strptime.

Fixpoint find_file (files : list (string * DataFrame)) (path : string)
    : option DataFrame :=
  match files with
  | [] => None
  | (p, df) :: files => if String.eqb p path then Some df else find_file files path
  end.

(** A world with the given files (each with the table the parser reads from
    it) and the two zones [UTC] and [Europe/Bratislava]. *)
Definition world (files : list (string * DataFrame)) (note : string) : World :=
  {| path_exists p := bool_decide (is_Some (find_file files p));
     zone_exists z := String.eqb z "UTC" || String.eqb z "Europe/Bratislava";
     zone_error z :=
       if String.eqb z "" || String.prefix "/" z
       then ValueError "ZoneInfo keys must be normalized relative paths"
       else ZoneInfoNotFoundError z;
     read_table p sep decimal :=
       match find_file files p with
       | Some df => Ok df
       | None => Err (ParserError "No such file")
       end;
     read_usecols p sep decimal usecols := Err (ParserError "No such file");
     float_repr q := note;
     set_repr l := note ++ String.concat ", " l |}.

Definition call_of (l : list (string * PyVal)) : ServiceCall :=
  {| data := list_to_map l |}.

Definition utc : ZoneInfo := {| zone_key := "UTC" |}.

Definition at_ (d m y h n : Z) : Instant :=
  {| naive := {| year := y; month := m; day := d; hour := h; minute := n |};
     tzinfo := utc |}.

(** A generic file: two rows of one sensor, as in the specification's
    example. *)
Definition generic_df : DataFrame :=
  {| columns := ["statistic_id"; "start"; "sum"];
     rows := [ [("statistic_id", PStr "sensor.a"); ("start", PStr "01.01.2023 00:00");
                ("sum", PInt 5)];
               [("statistic_id", PStr "sensor.a"); ("start", PStr "01.01.2023 01:00");
                ("sum", PInt 3)] ] |}.

(** A supplier file with one further column. *)
Definition bdf_df : DataFrame :=
  {| columns := ["Id"; CSV_COL_DATETIME; CSV_COL_CONSUMPTION; CSV_COL_SUPPLY];
     rows := [ [("Id", PInt 1); (CSV_COL_DATETIME, PStr "01.01.2023 00:00");
                (CSV_COL_CONSUMPTION, PInt 7); (CSV_COL_SUPPLY, PInt 2)];
               [("Id", PInt 2); (CSV_COL_DATETIME, PStr "01.01.2023 01:00");
                (CSV_COL_CONSUMPTION, PInt 8); (CSV_COL_SUPPLY, PInt 4)] ] |}.

(** A file with the supplier's columns and the generic ones, whose supplier
    timestamp is malformed. *)
Definition mixed_df : DataFrame :=
  {| columns := [CSV_COL_DATETIME; CSV_COL_CONSUMPTION; CSV_COL_SUPPLY;
                 "statistic_id"; "start"; "sum"];
     rows := [ [(CSV_COL_DATETIME, PStr "yesterday"); (CSV_COL_CONSUMPTION, PInt 7);
                (CSV_COL_SUPPLY, PInt 2); ("statistic_id", PStr "sensor.a");
                ("start", PStr "01.01.2023 00:00"); ("sum", PInt 5)] ] |}.

(** A generic file whose second timestamp is malformed. *)
Definition bad_generic_df : DataFrame :=
  {| columns := ["statistic_id"; "start"; "sum"];
     rows := [ [("statistic_id", PStr "sensor.a"); ("start", PStr "01.01.2023 00:00");
                ("sum", PInt 5)];
               [("statistic_id", PStr "sensor.a"); ("start", PStr "2023-01-01 01:00");
                ("sum", PInt 3)] ] |}.

Definition files : list (string * DataFrame) :=
  [("generic.csv", generic_df); ("bdf.csv", bdf_df); ("mixed.csv", mixed_df);
   ("bad.csv", bad_generic_df)].

Definition w : World := world files "".

Definition call_utc : ServiceCall :=
  call_of [(ATTR_TIMEZONE_IDENTIFIER, PStr "UTC")].

Definition call_bad_zone : ServiceCall :=
  call_of [(ATTR_TIMEZONE_IDENTIFIER, PStr "Not/AZone")].

Definition call_same_id : ServiceCall :=
  call_of [(ATTR_TIMEZONE_IDENTIFIER, PStr "UTC");
           (ATTR_STAT_ID_CONSUMPTION, PStr "sensor.energy");
           (ATTR_STAT_ID_SUPPLY, PStr "sensor.energy");
           (ATTR_UNIT_CONSUMPTION, PStr "kW");
           (ATTR_UNIT_SUPPLY, PStr "kWh")].

(** The supplier table as the specialised attempt sees it. *)
Definition bdf_table : DataFrame :=
  rename [(CSV_COL_DATETIME, "start"); (CSV_COL_CONSUMPTION, "consumption");
          (CSV_COL_SUPPLY, "supply")] (select_columns BDF_USECOLS bdf_df).

Definition sum_metadata (statistic_id unit : string) : Metadata :=
  {| has_mean := false; has_sum := true; source := "sensor";
     statistic_id := statistic_id; name := None; unit_of_measurement := PStr unit |}.

(** The Outputs the sample files give. *)
Definition generic_stats : Stats :=
  {[ "sensor.a" := (sum_metadata "sensor.a" "",
                    [SumPoint (at_ 1 1 2023 0 0) (PInt 5);
                     SumPoint (at_ 1 1 2023 1 0) (PInt 3)]) ]}.

Definition bdf_default_stats : Stats :=
  <[ "sensor.energy_supply" :=
       (sum_metadata "sensor.energy_supply" "",
        [SumPoint (at_ 1 1 2023 0 0) (PInt 2); SumPoint (at_ 1 1 2023 1 0) (PInt 4)]) ]>
  {[ "sensor.energy_consumption" :=
       (sum_metadata "sensor.energy_consumption" "",
        [SumPoint (at_ 1 1 2023 0 0) (PInt 7); SumPoint (at_ 1 1 2023 1 0) (PInt 8)]) ]}.

Definition same_id_stats : Stats :=
  {[ "sensor.energy" :=
       (sum_metadata "sensor.energy" "kWh",
        [SumPoint (at_ 1 1 2023 0 0) (PInt 7); SumPoint (at_ 1 1 2023 0 0) (PInt 2);
         SumPoint (at_ 1 1 2023 1 0) (PInt 8); SumPoint (at_ 1 1 2023 1 0) (PInt 4)]) ]}.

Definition mixed_stats : Stats :=
  {[ "sensor.a" := (sum_metadata "sensor.a" "", [SumPoint (at_ 1 1 2023 0 0) (PInt 5)]) ]}.

(** A generic file of mean values with a unit column: two sensors, the
    first of them with a different unit in its second row. *)
Definition two_sensor_df : DataFrame :=
  {| columns := ["statistic_id"; "start"; "mean"; "unit"];
     rows := [ [("statistic_id", PStr "sensor.a"); ("start", PStr "01.01.2023 00:00");
                ("mean", PInt 1); ("unit", PStr "kWh")];
               [("statistic_id", PStr "sensor.b"); ("start", PStr "01.01.2023 01:00");
                ("mean", PInt 2); ("unit", PStr "W")];
               [("statistic_id", PStr "sensor.a"); ("start", PStr "01.01.2023 02:00");
                ("mean", PInt 3); ("unit", PStr "MWh")] ] |}.

Definition two_sensor_stats : Stats :=
  <[ "sensor.b" :=
       ({| has_mean := true; has_sum := false; source := "sensor";
           statistic_id := "sensor.b"; name := None; unit_of_measurement := PStr "W" |},
        [MeanPoint (at_ 1 1 2023 1 0) (PInt 2)]) ]>
  {[ "sensor.a" :=
       ({| has_mean := true; has_sum := false; source := "sensor";
           statistic_id := "sensor.a"; name := None; unit_of_measurement := PStr "kWh" |},
        [MeanPoint (at_ 1 1 2023 0 0) (PInt 1); MeanPoint (at_ 1 1 2023 2 0) (PInt 3)]) ]}.

(** A generic file with a header and no rows. *)
Definition header_only_df : DataFrame :=
  {| columns := ["statistic_id"; "start"; "sum"]; rows := [] |}.

(** A generic file whose second row has a malformed timestamp and whose
    third row has no identifier. *)
Definition failing_df : DataFrame :=
  {| columns := ["statistic_id"; "start"; "sum"];
     rows := [ [("statistic_id", PStr "sensor.a"); ("start", PStr "01.01.2023 00:00");
                ("sum", PInt 5)];
               [("statistic_id", PStr "sensor.a"); ("start", PStr "2023-01-01 01:00");
                ("sum", PInt 3)];
               [("start", PStr "01.01.2023 02:00"); ("sum", PInt 1)] ] |}.

(** Surroundings in which every path exists and no file can be read as a
    table: the rows are too long for the header, which lacks the supplier's
    columns. *)
Definition unreadable : World :=
  {| path_exists p := true;
     zone_exists z := String.eqb z "UTC";
     zone_error z := ZoneInfoNotFoundError z;
     read_table p sep decimal := Err (ParserError "Expected 3 fields in line 2, saw 4");
     read_usecols p sep decimal usecols := Err (ValueError "Usecols do not match columns");
     float_repr q := "";
     set_repr l := "" |}.

(** Surroundings in which the supplier file has a row with more fields
    than the header: the unrestricted parser rejects it, the parser
    restricted to the supplier's columns reads it. *)
Definition overlong : World :=
  {| path_exists p := true;
     zone_exists z := String.eqb z "UTC";
     zone_error z := ZoneInfoNotFoundError z;
     read_table p sep decimal := Err (ParserError "Expected 4 fields in line 3, saw 5");
     read_usecols p sep decimal usecols := Ok (select_columns usecols bdf_df);
     float_repr q := "";
     set_repr l := "" |}.

End Sample.

(** ** Reading the loops

    What one row contributes, for stating what the loops of
    [handle_dataframe] and [handle_dataframe_bdf] accumulate. *)

Section Points.
Context `{S : StatHelpers}.

(** The series a row of the generic layout belongs to. *)
Definition row_id (row : Row) : option string :=
  match row_lookup row "statistic_id" with
  | Some (PStr statistic_id) => Some statistic_id
  | _ => None
  end.

(** The rows of one series, in file order. *)
Definition rows_of (statistic_id : string) (rows : list Row) : list Row :=
  filter (λ row, row_id row = Some statistic_id) rows.

(** The point [handle_dataframe] builds from a row. *)
Definition row_stat (has_mean : bool) (timezone : ZoneInfo) (datetime_format : PyVal)
    (row : Row) : result StatisticPoint :=
  if has_mean then get_mean_stat row timezone datetime_format
  else get_sum_stat row timezone datetime_format.

(** The two points [handle_dataframe_bdf] builds from a row. *)
Definition cons_stat (tz : ZoneInfo) (datetime_format : PyVal) (row : Row)
    : result StatisticPoint :=
  start ← row_getitem row "start";
  consumption ← row_getitem row "consumption";
  get_sum_stat [("start", start); ("sum", consumption)] tz datetime_format.

Definition supp_stat (tz : ZoneInfo) (datetime_format : PyVal) (row : Row)
    : result StatisticPoint :=
  start ← row_getitem row "start";
  supply ← row_getitem row "supply";
  get_sum_stat [("start", start); ("sum", supply)] tz datetime_format.

Definition bdf_stats (tz : ZoneInfo) (datetime_format : PyVal) (row : Row)
    (pq : StatisticPoint * StatisticPoint) : Prop :=
  cons_stat tz datetime_format row = Ok pq.1 ∧ supp_stat tz datetime_format row = Ok pq.2.

(** The points one row of the supplier layout adds to the series
    [statistic_id]: its consumption point if that is the consumption
    series, then its supply point if that is the supply series. *)
Definition bdf_points (stat_id_consumption stat_id_supply statistic_id : string)
    (pq : StatisticPoint * StatisticPoint) : list StatisticPoint :=
  ((if decide (statistic_id = stat_id_consumption) then [pq.1] else [])
   ++ (if decide (statistic_id = stat_id_supply) then [pq.2] else []))%list.

(** A series of the supplier layout after some rows: the metadata is kept,
    the points of the rows are added at the end. *)
Definition grown (stat_id_consumption stat_id_supply statistic_id : string)
    (pairs : list (StatisticPoint * StatisticPoint))
    (mp : Metadata * list StatisticPoint) : Metadata * list StatisticPoint :=
  (mp.1,
   (mp.2 ++ flat_map (bdf_points stat_id_consumption stat_id_supply statistic_id) pairs)%list).

End Points.

(** The metadata of a series of the supplier layout. *)
Definition bdf_metadata (source stat_id : string) (unit : PyVal) : Metadata :=
  {| has_mean := false; has_sum := true; source := source;
     statistic_id := stat_id; name := None; unit_of_measurement := unit |}.

(** The metadata of a series of the generic layout. *)
Definition generic_metadata (has_mean has_sum : bool) (source statistic_id : string)
    (unit : PyVal) : Metadata :=
  {| has_mean := has_mean; has_sum := has_sum; source := source;
     statistic_id := statistic_id; name := None; unit_of_measurement := unit |}.

(** The number of points of an Output, over all its series. *)
Definition total_points (stats : Stats) : nat :=
  map_fold (λ _ (mp : Metadata * list StatisticPoint) n, length mp.2 + n) 0 stats.

(** * Properties *)

(** ** The error monad *)

Lemma bind_Ok_inv {A B} (m : result A) (f : A → result B) (b : B) :
  m ≫= f = Ok b → ∃ a, m = Ok a ∧ f a = Ok b.
Proof. destruct m as [a|e]; simpl; [eauto | discriminate]. Qed.

Lemma guard_Ok_inv (c : bool) (msg : string) (u : ()) :
  (if c then handle_error msg else Ok ()) = Ok u → c = false.
Proof. by destruct c. Qed.

(** Splits a hypothesis [m ≫= f = Ok b] into its two halves. *)
Tactic Notation "inv_bind" hyp(Hyp) "as" simple_intropattern(a) ident(Ha) :=
  apply bind_Ok_inv in Hyp as (a & Ha & Hyp).

(** A loop that returns has run its body without an exception on every
    element. *)
Lemma foldlM_Ok_each {A B} (f : A → B → result A) (P : B → Prop) :
  (∀ a b a', f a b = Ok a' → P b) →
  ∀ l a a', foldlM f a l = Ok a' → Forall P l.
Proof.
  intros Hf. induction l as [|b l IH]; intros a a' Hl; [constructor|].
  simpl in Hl. inv_bind Hl as a1 Hb. constructor; eauto.
Qed.

(** ** Traces *)

Lemma IO_bind_trace {A B} (m : IO A) (f : A → IO B) :
  (m ≫= f).1
  = (m.1 ++ match m.2 with Ok a => (f a).1 | Err _ => [] end)%list.
Proof.
  destruct m as [t [a|e]]; unfold mbind, IO_bind; simpl.
  - by destruct (f a).
  - by rewrite app_nil_r.
Qed.

Lemma IO_bind_result {A B} (m : IO A) (f : A → IO B) :
  (m ≫= f).2 = m.2 ≫= λ a, (f a).2.
Proof.
  destruct m as [t [a|e]]; unfold mbind at 1, IO_bind; simpl; [|done].
  by destruct (f a).
Qed.

(** ** Argument resolution *)

Section Arguments.
Context `{W : World}.

Lemma handle_arguments_no_path file_path call :
  path_exists file_path = false →
  handle_arguments file_path call
  = Err (HomeAssistantError ("path " ++ file_path ++ " does not exist.")).
Proof. intros Hp. unfold handle_arguments. by rewrite Hp. Qed.

Lemma handle_arguments_bad_zone file_path call e :
  path_exists file_path = true →
  ZoneInfo_new (data_get call ATTR_TIMEZONE_IDENTIFIER PNone) = Err e →
  handle_arguments file_path call
  = Err (HomeAssistantError
           ("Invalid timezone_identifier: "
            ++ py_str (data_get call ATTR_TIMEZONE_IDENTIFIER PNone))).
Proof. intros Hp Hz. unfold handle_arguments. by rewrite Hp, Hz. Qed.

Lemma handle_arguments_Ok file_path call z :
  path_exists file_path = true →
  ZoneInfo_new (data_get call ATTR_TIMEZONE_IDENTIFIER PNone) = Ok z →
  handle_arguments file_path call
  = Ok (if py_truthy (data_get call ATTR_DECIMAL (PBool true))
        then PStr "," else PStr ".",
        data_get call ATTR_TIMEZONE_IDENTIFIER PNone,
        data_get call ATTR_DELIMITER PNone,
        data_get call ATTR_DATETIME_FORMAT (PStr DATETIME_DEFAULT_FORMAT),
        if is_True (data_get call ATTR_UNIT_FROM_ENTITY PNone) then ENTITY else TABLE).
Proof. intros Hp Hz. unfold handle_arguments. by rewrite Hp, Hz. Qed.

Lemma handle_arguments_Ok_inv file_path call dec tz delim fmt u :
  handle_arguments file_path call = Ok (dec, tz, delim, fmt, u) →
  path_exists file_path = true ∧
  is_Ok (ZoneInfo_new tz) ∧
  dec = (if py_truthy (data_get call ATTR_DECIMAL (PBool true))
         then PStr "," else PStr ".") ∧
  tz = data_get call ATTR_TIMEZONE_IDENTIFIER PNone ∧
  delim = data_get call ATTR_DELIMITER PNone ∧
  fmt = data_get call ATTR_DATETIME_FORMAT (PStr DATETIME_DEFAULT_FORMAT) ∧
  u = (if is_True (data_get call ATTR_UNIT_FROM_ENTITY PNone) then ENTITY else TABLE).
Proof.
  unfold handle_arguments. intros Ha.
  destruct (path_exists file_path); [|done]. simpl in Ha.
  destruct (ZoneInfo_new _) as [z|e] eqn:Hz; [|done]. simpl in Ha.
  injection Ha as <- <- <- <- <-. repeat split; try done. by exists z.
Qed.

End Arguments.

(** ** The dispatch between the two pipelines *)

Section Dispatch.
Context `{W : World} `{H : Helpers} `{S : StatHelpers}.

Lemma read_csv_trace path sep decimal usecols :
  (read_csv path sep decimal usecols).1 = [ReadCsv path sep decimal usecols].
Proof. done. Qed.

Lemma try_bdf_mode_trace file_path call dec tz delim fmt u :
  (try_bdf_mode file_path call dec tz delim fmt u).1
  = [ReadCsv file_path delim dec (Some BDF_USECOLS)].
Proof.
  unfold try_bdf_mode. rewrite IO_bind_trace, read_csv_trace.
  destruct (read_csv _ _ _ _).2 as [df|e]; [|done].
  rewrite IO_bind_trace. simpl. by destruct (_ ≫= _).
Qed.

Lemma fallback_mode_trace file_path dec tz delim fmt u :
  (fallback_mode file_path dec tz delim fmt u).1
  = [ReadCsv file_path delim dec None].
Proof.
  unfold fallback_mode. rewrite IO_bind_trace, read_csv_trace.
  destruct (read_csv _ _ _ _).2 as [df|e]; [|done].
  rewrite IO_bind_trace. simpl. by destruct (handle_dataframe _ _ _ _).
Qed.

(** The specialised attempt, as a result: the table restricted to the three
    columns and renamed, handed to [handle_dataframe_bdf]. *)
Lemma try_bdf_mode_result file_path call dec tz delim fmt u :
  (try_bdf_mode file_path call dec tz delim fmt u).2
  = (raw_df ← (read_csv file_path delim dec (Some BDF_USECOLS)).2;
     stat_id_consumption ←
       as_str (data_get call ATTR_STAT_ID_CONSUMPTION (PStr "sensor.energy_consumption"));
     stat_id_supply ←
       as_str (data_get call ATTR_STAT_ID_SUPPLY (PStr "sensor.energy_supply"));
     stats ← handle_dataframe_bdf
       (rename [(CSV_COL_DATETIME, "start"); (CSV_COL_CONSUMPTION, "consumption");
                (CSV_COL_SUPPLY, "supply")] raw_df)
       tz fmt u stat_id_consumption stat_id_supply
       (data_get call ATTR_UNIT_CONSUMPTION (PStr ""))
       (data_get call ATTR_UNIT_SUPPLY (PStr ""));
     Ok (stats, u)).
Proof.
  unfold try_bdf_mode. rewrite IO_bind_result.
  destruct (read_csv _ _ _ _).2 as [df|e]; [|done].
  cbn [mbind result_bind]. rewrite IO_bind_result. unfold lift. cbn [snd].
  destruct (as_str (data_get call ATTR_STAT_ID_CONSUMPTION _)) as [c|e]; simpl; [|done].
  destruct (as_str (data_get call ATTR_STAT_ID_SUPPLY _)) as [s|e]; simpl; [|done].
  by destruct (handle_dataframe_bdf _ _ _ _ _ _ _ _).
Qed.

Lemma fallback_mode_result file_path dec tz delim fmt u :
  (fallback_mode file_path dec tz delim fmt u).2
  = (my_df ← read_table file_path delim dec;
     stats ← handle_dataframe my_df tz fmt u;
     Ok (stats, u)).
Proof.
  unfold fallback_mode. rewrite IO_bind_result. unfold read_csv. cbn [snd].
  destruct (read_table _ _ _) as [df|e]; [|done].
  cbn [mbind result_bind]. rewrite IO_bind_result. unfold lift. cbn [snd].
  by destruct (handle_dataframe _ _ _ _).
Qed.

Lemma prepare_data_to_import_no_arguments file_path call e :
  handle_arguments file_path call = Err e →
  prepare_data_to_import file_path call = ([], Err e).
Proof. intros Ha. unfold prepare_data_to_import, lift. by rewrite Ha. Qed.

Lemma prepare_data_to_import_unfold file_path call dec tz delim fmt u :
  handle_arguments file_path call = Ok (dec, tz, delim, fmt, u) →
  prepare_data_to_import file_path call
  = try_except
      (try_bdf_mode file_path call (py_or dec (PStr ",")) tz (py_or delim (PStr ";")) fmt u)
      (λ _, fallback_mode file_path (py_or dec (PStr ",")) tz (py_or delim (PStr ";")) fmt u).
Proof.
  intros Ha. unfold prepare_data_to_import, lift. rewrite Ha.
  unfold mbind, IO_bind. by destruct (try_except _ _).
Qed.

Lemma prepare_data_to_import_bdf file_path call dec tz delim fmt u out :
  handle_arguments file_path call = Ok (dec, tz, delim, fmt, u) →
  (try_bdf_mode file_path call (py_or dec (PStr ",")) tz (py_or delim (PStr ";")) fmt u).2
  = Ok out →
  prepare_data_to_import file_path call
  = ([ReadCsv file_path (py_or delim (PStr ";")) (py_or dec (PStr ","))
        (Some BDF_USECOLS)], Ok out).
Proof.
  intros Ha Hb. rewrite (prepare_data_to_import_unfold _ _ _ _ _ _ _ Ha).
  pose proof (try_bdf_mode_trace file_path call (py_or dec (PStr ",")) tz
                (py_or delim (PStr ";")) fmt u) as Ht.
  unfold try_except. destruct (try_bdf_mode _ _ _ _ _ _ _) as [t r].
  simpl in *. by subst.
Qed.

Lemma prepare_data_to_import_fallback file_path call dec tz delim fmt u e :
  handle_arguments file_path call = Ok (dec, tz, delim, fmt, u) →
  (try_bdf_mode file_path call (py_or dec (PStr ",")) tz (py_or delim (PStr ";")) fmt u).2
  = Err e →
  prepare_data_to_import file_path call
  = ([ReadCsv file_path (py_or delim (PStr ";")) (py_or dec (PStr ","))
        (Some BDF_USECOLS);
      ReadCsv file_path (py_or delim (PStr ";")) (py_or dec (PStr ",")) None],
     (fallback_mode file_path (py_or dec (PStr ",")) tz (py_or delim (PStr ";")) fmt u).2).
Proof.
  intros Ha Hb. rewrite (prepare_data_to_import_unfold _ _ _ _ _ _ _ Ha).
  pose proof (try_bdf_mode_trace file_path call (py_or dec (PStr ",")) tz
                (py_or delim (PStr ";")) fmt u) as Ht.
  pose proof (fallback_mode_trace file_path (py_or dec (PStr ",")) tz
                (py_or delim (PStr ";")) fmt u) as Hf.
  unfold try_except. destruct (try_bdf_mode _ _ _ _ _ _ _) as [t r].
  destruct (fallback_mode _ _ _ _ _ _) as [t' r'].
  simpl in *. by subst.
Qed.

End Dispatch.

(** ** The loop of the generic layout *)

Section GenericLoop.
Context `{H : Helpers} `{S : StatHelpers}.
Variables (hm hs : bool) (timezone : ZoneInfo) (fmt : PyVal) (u : UnitFrom).

Lemma append_stat_Ok k p (stats stats' : Stats) :
  append_stat k p stats = Ok stats' →
  ∃ md pts, stats !! k = Some (md, pts) ∧ stats' = <[k := (md, (pts ++ [p])%list)]> stats.
Proof.
  unfold append_stat. destruct (stats !! k) as [[md pts]|]; [|done].
  intros [= <-]. eauto.
Qed.

Lemma append_stat_lookup k p (stats : Stats) md pts :
  stats !! k = Some (md, pts) →
  append_stat k p stats = Ok (<[k := (md, (pts ++ [p])%list)]> stats).
Proof. intros Hk. unfold append_stat. by rewrite Hk. Qed.

Lemma row_id_getitem row k :
  row_id row = Some k ↔
  (cell ← row_getitem row "statistic_id"; as_str cell) = Ok k.
Proof.
  unfold row_id, row_getitem.
  destruct (row_lookup row "statistic_id") as [[]|]; simpl; naive_solver.
Qed.

(** One row: the row names its series, the point is built, and the point
    goes to the end of that series, which is created first if new. *)
Lemma handle_dataframe_row_Ok (stats stats' : Stats) row :
  handle_dataframe_row hm hs timezone fmt u stats row = Ok stats' →
  ∃ k p, row_id row = Some k ∧ row_stat hm timezone fmt row = Ok p ∧
    ((∃ md pts, stats !! k = Some (md, pts) ∧
                stats' = <[k := (md, (pts ++ [p])%list)]> stats)
     ∨ (stats !! k = None ∧
        ∃ md, has_mean md = hm ∧ has_sum md = hs ∧ statistic_id md = k ∧
              stats' = <[k := (md, [p])]> stats)).
Proof.
  unfold handle_dataframe_row. intros Hrow.
  destruct (row_getitem row "statistic_id" ≫= as_str) as [k|e] eqn:Hk.
  2:{ destruct (row_getitem row "statistic_id") as [cell|]; simpl in *; [|done].
      by rewrite Hk in Hrow. }
  assert (row_id row = Some k) as Hid by by apply row_id_getitem.
  destruct (row_getitem row "statistic_id") as [cell|]; simpl in *; [|done].
  rewrite Hk in Hrow. simpl in Hrow.
  exists k. inv_bind Hrow as stats1 Hnew. inv_bind Hrow as p Hp.
  apply append_stat_Ok in Hrow as (md & pts & Hlook & ->).
  exists p. split; [done|]. split; [done|].
  destruct (stats !! k) as [[md0 pts0]|] eqn:Hst.
  - left. injection Hnew as <-. rewrite Hst in Hlook. injection Hlook as <- <-. eauto.
  - right. split; [done|].
    inv_bind Hnew as src Hsrc. inv_bind Hnew as un Hun. injection Hnew as <-.
    rewrite lookup_insert_eq in Hlook. injection Hlook as <- <-.
    eexists. rewrite insert_insert_eq. repeat split; done.
Qed.

Lemma rows_of_cons_eq k row rows :
  row_id row = Some k → rows_of k (row :: rows) = row :: rows_of k rows.
Proof. intros Hk. unfold rows_of. by rewrite filter_cons_True. Qed.

Lemma rows_of_cons_ne k row rows :
  row_id row ≠ Some k → rows_of k (row :: rows) = rows_of k rows.
Proof. intros Hk. unfold rows_of. by rewrite filter_cons_False. Qed.

(** The loop: a series of the result either was there before and has grown
    by the points of its rows, or is new, carries the aggregation kind of
    the loop and holds exactly the points of its rows; in both cases in the
    order of the rows. *)
Lemma generic_loop_series rows :
  ∀ (stats0 stats : Stats),
  foldlM (handle_dataframe_row hm hs timezone fmt u) stats0 rows = Ok stats →
  ∀ k,
    match stats !! k with
    | Some (md, pts) =>
        ∃ new, Forall2 (λ r p, row_stat hm timezone fmt r = Ok p) (rows_of k rows) new ∧
          ((∃ pts0, stats0 !! k = Some (md, pts0) ∧ pts = (pts0 ++ new)%list)
           ∨ (stats0 !! k = None ∧ rows_of k rows ≠ [] ∧
              has_mean md = hm ∧ has_sum md = hs ∧ statistic_id md = k ∧ pts = new))
    | None => stats0 !! k = None ∧ rows_of k rows = []
    end.
Proof.
  induction rows as [|row rows IH]; intros stats0 stats Hloop k.
  - injection Hloop as <-. destruct (stats0 !! k) as [[md pts]|] eqn:Hk; [|done].
    exists []. split; [constructor|]. left. exists pts. by rewrite app_nil_r.
  - simpl in Hloop. inv_bind Hloop as stats1 Hrow.
    apply handle_dataframe_row_Ok in Hrow as (k0 & p & Hid & Hp & Hcase).
    specialize (IH _ _ Hloop k).
    destruct (decide (k = k0)) as [->|Hne].
    + rewrite (rows_of_cons_eq _ _ _ Hid).
      destruct Hcase as [(md0 & pts0 & Hst & ->)|(Hst & md0 & Hm & Hs & Hi & ->)];
        rewrite lookup_insert_eq in IH;
        destruct (stats !! k0) as [[md pts]|]; try (by destruct IH);
        destruct IH as (new & Hnew & [(pts1 & [= <- <-] & ->)|(? & _)]); try done;
        exists (p :: new); (split; [by constructor|]).
      * left. exists pts0. by rewrite <- app_assoc.
      * right. by repeat split.
    + assert (row_id row ≠ Some k) as Hid' by (rewrite Hid; congruence).
      rewrite (rows_of_cons_ne _ _ _ Hid').
      assert (stats1 !! k = stats0 !! k) as Heq.
      { destruct Hcase as [(md0 & pts0 & Hst & ->)|(Hst & md0 & _ & _ & _ & ->)];
          by rewrite lookup_insert_ne. }
      by rewrite Heq in IH.
Qed.

(** A loop that returns has built a point from every row. *)
Lemma generic_loop_each_row rows (stats0 stats : Stats) :
  foldlM (handle_dataframe_row hm hs timezone fmt u) stats0 rows = Ok stats →
  Forall (λ row, is_Ok (row_stat hm timezone fmt row)) rows.
Proof.
  apply foldlM_Ok_each. intros a row a' Hrow.
  apply handle_dataframe_row_Ok in Hrow as (k & p & _ & Hp & _). by exists p.
Qed.

End GenericLoop.

(** ** [handle_dataframe] *)

Section HandleDataframe.
Context `{W : World} `{H : Helpers} `{S : StatHelpers}.

(** With valid columns and exactly one of the two value columns, the
    function is the loop over the rows. *)
Lemma handle_dataframe_unfold df tz fmt u :
  are_columns_valid df u = Ok true →
  bool_decide ("mean" ∈ columns df) ≠ bool_decide ("sum" ∈ columns df) →
  handle_dataframe df tz fmt u
  = (timezone ← ZoneInfo_new tz;
     foldlM (handle_dataframe_row (bool_decide ("mean" ∈ columns df))
               (bool_decide ("sum" ∈ columns df)) timezone fmt u) ∅ (rows df)).
Proof.
  intros Hv Hx. unfold handle_dataframe. rewrite Hv. simpl.
  by destruct (bool_decide ("mean" ∈ columns df)), (bool_decide ("sum" ∈ columns df)).
Qed.

Lemma handle_dataframe_Ok_inv df tz fmt u stats :
  handle_dataframe df tz fmt u = Ok stats →
  are_columns_valid df u = Ok true ∧
  bool_decide ("mean" ∈ columns df) ≠ bool_decide ("sum" ∈ columns df) ∧
  ∃ timezone, ZoneInfo_new tz = Ok timezone ∧
    foldlM (handle_dataframe_row (bool_decide ("mean" ∈ columns df))
              (bool_decide ("sum" ∈ columns df)) timezone fmt u) ∅ (rows df)
    = Ok stats.
Proof.
  unfold handle_dataframe. intros Hdf.
  inv_bind Hdf as [|] Hv; [|done]. simpl in Hdf.
  inv_bind Hdf as ? Hboth. apply guard_Ok_inv in Hboth.
  inv_bind Hdf as ? Hnone. apply guard_Ok_inv in Hnone.
  inv_bind Hdf as timezone Hz. split; [done|]. split; [|eauto].
  by destruct (bool_decide ("mean" ∈ columns df)), (bool_decide ("sum" ∈ columns df)).
Qed.

(** Both value columns, or none: the function raises, whatever the helpers
    do. *)
Lemma handle_dataframe_ambiguous df tz fmt u :
  bool_decide ("mean" ∈ columns df) = bool_decide ("sum" ∈ columns df) →
  is_Err (handle_dataframe df tz fmt u).
Proof.
  intros Hx. destruct (handle_dataframe df tz fmt u) as [stats|e] eqn:Hdf; [|by exists e].
  by apply handle_dataframe_Ok_inv in Hdf as (_ & ? & _).
Qed.

(** Every series of the result: its aggregation kind is the one read off
    the header, and its points are those of its rows, in order. *)
Lemma handle_dataframe_series df tz fmt u stats k md pts :
  handle_dataframe df tz fmt u = Ok stats →
  stats !! k = Some (md, pts) →
  has_mean md = bool_decide ("mean" ∈ columns df) ∧
  has_sum md = bool_decide ("sum" ∈ columns df) ∧
  statistic_id md = k ∧
  rows_of k (rows df) ≠ [] ∧
  ∃ timezone, ZoneInfo_new tz = Ok timezone ∧
    Forall2 (λ r p, row_stat (bool_decide ("mean" ∈ columns df)) timezone fmt r = Ok p)
      (rows_of k (rows df)) pts.
Proof.
  intros Hdf Hk. apply handle_dataframe_Ok_inv in Hdf as (_ & _ & z & Hz & Hloop).
  pose proof (generic_loop_series _ _ _ _ _ _ _ _ Hloop k) as Hs.
  rewrite Hk in Hs. destruct Hs as (new & Hnew & [(pts0 & Hemp & _)|Hs]).
  - by rewrite lookup_empty in Hemp.
  - destruct Hs as (_ & Hne & Hm & Hsum & Hi & ->). repeat split; try done. eauto.
Qed.

Lemma handle_dataframe_no_series df tz fmt u stats k :
  handle_dataframe df tz fmt u = Ok stats →
  stats !! k = None →
  rows_of k (rows df) = [].
Proof.
  intros Hdf Hk. apply handle_dataframe_Ok_inv in Hdf as (_ & _ & z & Hz & Hloop).
  pose proof (generic_loop_series _ _ _ _ _ _ _ _ Hloop k) as Hs.
  rewrite Hk in Hs. by destruct Hs.
Qed.

(** A row whose point cannot be built makes the whole function raise. *)
Lemma handle_dataframe_bad_row df tz fmt u timezone row e :
  ZoneInfo_new tz = Ok timezone →
  row ∈ rows df →
  row_stat (bool_decide ("mean" ∈ columns df)) timezone fmt row = Err e →
  is_Err (handle_dataframe df tz fmt u).
Proof.
  intros Hz Hin Hrow.
  destruct (handle_dataframe df tz fmt u) as [stats|e'] eqn:Hdf; [|by exists e'].
  apply handle_dataframe_Ok_inv in Hdf as (_ & _ & z & Hz' & Hloop).
  rewrite Hz in Hz'. injection Hz' as <-.
  apply generic_loop_each_row in Hloop.
  rewrite Forall_forall in Hloop. destruct (Hloop _ Hin) as [p Hp]. congruence.
Qed.

End HandleDataframe.

(** ** [handle_dataframe_bdf] *)

Section HandleDataframeBdf.
Context `{W : World} `{H : Helpers} `{S : StatHelpers}.
Variables (tz : ZoneInfo) (fmt : PyVal) (c s : string).

Lemma append_stat_all k p (stats stats' : Stats) :
  append_stat k p stats = Ok stats' →
  ∀ k', stats' !! k'
        = (λ mp : Metadata * list StatisticPoint,
             (mp.1, (mp.2 ++ if decide (k' = k) then [p] else [])%list))
          <$> stats !! k'.
Proof.
  intros Ha k'. apply append_stat_Ok in Ha as (md & pts & Hk & ->).
  destruct (decide (k' = k)) as [->|Hne].
  - by rewrite lookup_insert_eq, Hk.
  - rewrite lookup_insert_ne by done.
    destruct (stats !! k') as [[md' pts']|]; simpl; [|done]. by rewrite app_nil_r.
Qed.

Lemma bdf_fill_row_Ok (stats stats' : Stats) row :
  bdf_fill_row tz fmt c s stats row = Ok stats' →
  ∃ pq, bdf_stats tz fmt row pq ∧
    ∀ k, stats' !! k = grown c s k [pq] <$> stats !! k.
Proof.
  unfold bdf_fill_row. intros Hrow.
  inv_bind Hrow as start Hstart. inv_bind Hrow as cv Hcv.
  inv_bind Hrow as p Hp. inv_bind Hrow as stats1 Hap.
  rewrite Hstart in Hrow. simpl in Hrow.
  inv_bind Hrow as sv Hsv. inv_bind Hrow as q Hq.
  exists (p, q). split.
  - unfold bdf_stats, cons_stat, supp_stat. rewrite Hstart, Hcv, Hsv. by simpl.
  - intros k. rewrite (append_stat_all _ _ _ _ Hrow k), (append_stat_all _ _ _ _ Hap k).
    destruct (stats !! k) as [[md pts]|]; simpl; [|done].
    unfold grown, bdf_points. simpl. by rewrite app_nil_r, <- app_assoc.
Qed.

Lemma bdf_fill_row_total (stats : Stats) row pq :
  is_Some (stats !! c) → is_Some (stats !! s) →
  bdf_stats tz fmt row pq →
  is_Ok (bdf_fill_row tz fmt c s stats row).
Proof.
  intros [[mdc ptsc] Hc] [[mds ptss] Hs] [Hp Hq].
  unfold bdf_fill_row, cons_stat, supp_stat in *.
  destruct (row_getitem row "start") as [st|]; simpl in *; [|done].
  destruct (row_getitem row "consumption") as [cv|]; simpl in *; [|done].
  rewrite Hp. simpl. rewrite (append_stat_lookup _ _ _ _ _ Hc). simpl.
  destruct (row_getitem row "supply") as [sv|]; simpl in *; [|done].
  rewrite Hq. simpl.
  destruct (decide (s = c)) as [->|Hne].
  - erewrite append_stat_lookup; [by eexists|]. by rewrite lookup_insert_eq.
  - erewrite append_stat_lookup; [by eexists|]. by rewrite lookup_insert_ne.
Qed.

(** The second loop: every series keeps its metadata and grows by the
    points of the rows, in row order. *)
Lemma bdf_fill_loop rows :
  ∀ (stats0 stats : Stats),
  foldlM (bdf_fill_row tz fmt c s) stats0 rows = Ok stats →
  ∃ pairs, Forall2 (bdf_stats tz fmt) rows pairs ∧
    ∀ k, stats !! k = grown c s k pairs <$> stats0 !! k.
Proof.
  induction rows as [|row rows IH]; intros stats0 stats Hloop.
  - injection Hloop as <-. exists []. split; [constructor|].
    intros k. destruct (stats0 !! k) as [[md pts]|]; simpl; [|done].
    unfold grown. simpl. by rewrite app_nil_r.
  - simpl in Hloop. inv_bind Hloop as stats1 Hrow.
    apply bdf_fill_row_Ok in Hrow as (pq & Hpq & Hone).
    destruct (IH _ _ Hloop) as (pairs & Hpairs & Hrest).
    exists (pq :: pairs). split; [by constructor|].
    intros k. rewrite Hrest, Hone.
    destruct (stats0 !! k) as [[md pts]|]; simpl; [|done].
    unfold grown. simpl. by rewrite app_nil_r, <- app_assoc.
Qed.

Lemma bdf_fill_loop_total rows :
  ∀ (stats0 : Stats) pairs,
  is_Some (stats0 !! c) → is_Some (stats0 !! s) →
  Forall2 (bdf_stats tz fmt) rows pairs →
  is_Ok (foldlM (bdf_fill_row tz fmt c s) stats0 rows).
Proof.
  induction rows as [|row rows IH]; intros stats0 pairs Hc Hs Hpairs.
  - by eexists.
  - apply Forall2_cons_inv_l in Hpairs as (pq & pairs' & Hpq & Hrest & ->).
    destruct (bdf_fill_row_total stats0 row pq Hc Hs Hpq) as [stats1 Hrow].
    simpl. rewrite Hrow. simpl.
    apply bdf_fill_row_Ok in Hrow as (pq' & _ & Hone).
    apply (IH stats1 pairs'); [| |done]; rewrite Hone.
    + destruct Hc as [? ->]. by eexists.
    + destruct Hs as [? ->]. by eexists.
Qed.

End HandleDataframeBdf.

Section HandleDataframeBdfWhole.
Context `{W : World} `{H : Helpers} `{S : StatHelpers}.

(** The first loop: both helpers are asked for each of the two series, and
    the supply series is stored last. *)
Lemma bdf_create_loop u c uc s us (stats : Stats) :
  foldlM (bdf_create_series u) ∅ [(c, uc); (s, us)] = Ok stats ↔
  ∃ src_c un_c src_s un_s,
    get_source c = Ok src_c ∧ add_unit_to_dataframe src_c u uc c = Ok un_c ∧
    get_source s = Ok src_s ∧ add_unit_to_dataframe src_s u us s = Ok un_s ∧
    stats = <[s := (bdf_metadata src_s s un_s, [])]>
              (<[c := (bdf_metadata src_c c un_c, [])]> ∅).
Proof.
  simpl. split.
  - intros Hc. inv_bind Hc as stats1 H1. inv_bind Hc as stats2 H2.
    injection Hc as <-.
    inv_bind H1 as src_c Hsc. inv_bind H1 as un_c Huc. injection H1 as <-.
    inv_bind H2 as src_s Hss. inv_bind H2 as un_s Hus. injection H2 as <-.
    by exists src_c, un_c, src_s, un_s.
  - intros (src_c & un_c & src_s & un_s & Hsc & Huc & Hss & Hus & ->).
    by rewrite Hsc; simpl; rewrite Huc; simpl; rewrite Hss; simpl; rewrite Hus.
Qed.

Lemma required_columns df :
  forallb (λ col, bool_decide (col ∈ columns df)) ["start"; "consumption"; "supply"] = true ↔
  "start" ∈ columns df ∧ "consumption" ∈ columns df ∧ "supply" ∈ columns df.
Proof.
  simpl. rewrite !andb_true_iff, !bool_decide_eq_true. tauto.
Qed.

(** A result of [handle_dataframe_bdf]: the two series made up front, each
    grown by the points of the rows. *)
Lemma handle_dataframe_bdf_Ok_inv df tz fmt u c s uc us (stats : Stats) :
  handle_dataframe_bdf df tz fmt u c s uc us = Ok stats →
  ∃ timezone src_c un_c src_s un_s pairs,
    ZoneInfo_new tz = Ok timezone ∧
    get_source c = Ok src_c ∧ add_unit_to_dataframe src_c u uc c = Ok un_c ∧
    get_source s = Ok src_s ∧ add_unit_to_dataframe src_s u us s = Ok un_s ∧
    Forall2 (bdf_stats timezone fmt) (rows df) pairs ∧
    ∀ k, stats !! k
         = grown c s k pairs
           <$> (<[s := (bdf_metadata src_s s un_s, [])]>
                  (<[c := (bdf_metadata src_c c un_c, [])]> (∅ : Stats))) !! k.
Proof.
  unfold handle_dataframe_bdf. intros Hb.
  inv_bind Hb as ? Hreq. inv_bind Hb as timezone Hz. inv_bind Hb as stats0 Hcreate.
  apply bdf_create_loop in Hcreate
    as (src_c & un_c & src_s & un_s & Hsc & Huc & Hss & Hus & ->).
  apply bdf_fill_loop in Hb as (pairs & Hpairs & Hall).
  by exists timezone, src_c, un_c, src_s, un_s, pairs.
Qed.

(** [handle_dataframe_bdf] returns as soon as the columns are there, the
    zone resolves, the helpers answer for both series and both points of
    every row can be built. *)
Lemma handle_dataframe_bdf_total df tz fmt u c s uc us timezone src_c un_c src_s un_s pairs :
  "start" ∈ columns df → "consumption" ∈ columns df → "supply" ∈ columns df →
  ZoneInfo_new tz = Ok timezone →
  get_source c = Ok src_c → add_unit_to_dataframe src_c u uc c = Ok un_c →
  get_source s = Ok src_s → add_unit_to_dataframe src_s u us s = Ok un_s →
  Forall2 (bdf_stats timezone fmt) (rows df) pairs →
  is_Ok (handle_dataframe_bdf df tz fmt u c s uc us).
Proof.
  intros H1 H2 H3 Hz Hsc Huc Hss Hus Hpairs. unfold handle_dataframe_bdf.
  assert (forallb (λ col, bool_decide (col ∈ columns df))
            ["start"; "consumption"; "supply"] = true) as ->
    by by apply required_columns.
  simpl negb. cbn iota. cbn [mbind result_bind]. rewrite Hz. cbn [mbind result_bind].
  assert (foldlM (bdf_create_series u) ∅ [(c, uc); (s, us)]
          = Ok (<[s := (bdf_metadata src_s s un_s, [])]>
                  (<[c := (bdf_metadata src_c c un_c, [])]> ∅))) as ->.
  { apply bdf_create_loop. by exists src_c, un_c, src_s, un_s. }
  cbn [mbind result_bind].
  apply (bdf_fill_loop_total _ _ _ _ _ _ pairs); [| |done].
  - destruct (decide (c = s)) as [->|Hne].
    + rewrite lookup_insert_eq. by eexists.
    + rewrite lookup_insert_ne, lookup_insert_eq by done. by eexists.
  - rewrite lookup_insert_eq. by eexists.
Qed.

(** The keys of the result are the two configured identifiers. *)
Lemma handle_dataframe_bdf_dom df tz fmt u c s uc us (stats : Stats) :
  handle_dataframe_bdf df tz fmt u c s uc us = Ok stats →
  dom stats = {[c; s]}.
Proof.
  intros Hb.
  apply handle_dataframe_bdf_Ok_inv in Hb
    as (timezone & src_c & un_c & src_s & un_s & pairs & _ & _ & _ & _ & _ & _ & Hall).
  apply set_eq. intros k. rewrite elem_of_dom, Hall.
  rewrite fmap_is_Some, <- elem_of_dom.
  rewrite !dom_insert_L, dom_empty_L, !elem_of_union, !elem_of_singleton.
  rewrite elem_of_empty. tauto.
Qed.

End HandleDataframeBdfWhole.

(** ** Where an Output comes from *)

Section Origin.
Context `{W : World} `{H : Helpers} `{S : StatHelpers}.

(** The table the specialised pipeline works on, for a file the
    unrestricted parser reads. *)
Lemma read_csv_usecols_Ok file_path sep decimal df raw_df :
  read_table file_path sep decimal = Ok df →
  (read_csv file_path sep decimal (Some BDF_USECOLS)).2 = Ok raw_df →
  Forall (λ col, col ∈ columns df) BDF_USECOLS ∧
  raw_df = select_columns BDF_USECOLS df.
Proof.
  unfold read_csv. cbn [snd]. intros -> Hr.
  destruct (forallb _ _) eqn:Hall; [|done]. injection Hr as <-.
  split; [|done].
  apply Forall_forall. intros col Hcol.
  rewrite forallb_forall in Hall. eapply bool_decide_eq_true_1.
  apply Hall. by apply list_elem_of_In.
Qed.

Lemma read_csv_usecols_present file_path sep decimal df :
  read_table file_path sep decimal = Ok df →
  Forall (λ col, col ∈ columns df) BDF_USECOLS →
  (read_csv file_path sep decimal (Some BDF_USECOLS)).2
  = Ok (select_columns BDF_USECOLS df).
Proof.
  intros Hdf Hall. unfold read_csv. cbn [snd]. rewrite Hdf.
  assert (forallb (λ c, bool_decide (c ∈ columns df)) BDF_USECOLS = true) as ->; [|done].
  apply forallb_forall. intros col Hcol. apply bool_decide_eq_true_2.
  rewrite Forall_forall in Hall. by apply Hall, list_elem_of_In.
Qed.

Lemma read_csv_usecols_absent file_path sep decimal df col :
  read_table file_path sep decimal = Ok df →
  col ∈ BDF_USECOLS → col ∉ columns df →
  is_Err (read_csv file_path sep decimal (Some BDF_USECOLS)).2.
Proof.
  intros Hdf Hcol Hno.
  destruct (read_csv _ _ _ _).2 as [raw|e] eqn:Hr; [|by exists e].
  apply (read_csv_usecols_Ok _ _ _ _ _ Hdf) in Hr as (Hall & _).
  rewrite Forall_forall in Hall. destruct Hno. by apply Hall.
Qed.

(** The unit source handed back is the resolved one, in both pipelines. *)
Lemma try_bdf_mode_Ok file_path call dec tz delim fmt u stats u' :
  (try_bdf_mode file_path call dec tz delim fmt u).2 = Ok (stats, u') →
  u' = u ∧
  ∃ raw_df c s,
    (read_csv file_path delim dec (Some BDF_USECOLS)).2 = Ok raw_df ∧
    as_str (data_get call ATTR_STAT_ID_CONSUMPTION (PStr "sensor.energy_consumption"))
    = Ok c ∧
    as_str (data_get call ATTR_STAT_ID_SUPPLY (PStr "sensor.energy_supply")) = Ok s ∧
    handle_dataframe_bdf
      (rename [(CSV_COL_DATETIME, "start"); (CSV_COL_CONSUMPTION, "consumption");
               (CSV_COL_SUPPLY, "supply")] raw_df)
      tz fmt u c s
      (data_get call ATTR_UNIT_CONSUMPTION (PStr ""))
      (data_get call ATTR_UNIT_SUPPLY (PStr ""))
    = Ok stats.
Proof.
  rewrite try_bdf_mode_result. intros Hb.
  inv_bind Hb as raw Hraw. inv_bind Hb as c Hc. inv_bind Hb as s Hs.
  inv_bind Hb as stats' Hst. injection Hb as <- <-. split; [done|].
  by exists raw, c, s.
Qed.

Lemma fallback_mode_Ok file_path dec tz delim fmt u stats u' :
  (fallback_mode file_path dec tz delim fmt u).2 = Ok (stats, u') →
  u' = u ∧
  ∃ df, read_table file_path delim dec = Ok df ∧
        handle_dataframe df tz fmt u = Ok stats.
Proof.
  rewrite fallback_mode_result. intros Hf.
  inv_bind Hf as df Hdf. inv_bind Hf as stats' Hst. injection Hf as <- <-.
  split; [done|]. by exists df.
Qed.

(** An Output comes from exactly one of the two pipelines, and the trace
    tells which. *)
Lemma prepare_data_to_import_Ok_inv file_path call t stats u :
  prepare_data_to_import file_path call = (t, Ok (stats, u)) →
  ∃ dec tz delim fmt,
    handle_arguments file_path call = Ok (dec, tz, delim, fmt, u) ∧
    ((t = [ReadCsv file_path (py_or delim (PStr ";")) (py_or dec (PStr ","))
             (Some BDF_USECOLS)] ∧
      (try_bdf_mode file_path call (py_or dec (PStr ",")) tz
         (py_or delim (PStr ";")) fmt u).2 = Ok (stats, u))
     ∨ (t = [ReadCsv file_path (py_or delim (PStr ";")) (py_or dec (PStr ","))
               (Some BDF_USECOLS);
             ReadCsv file_path (py_or delim (PStr ";")) (py_or dec (PStr ",")) None] ∧
        is_Err (try_bdf_mode file_path call (py_or dec (PStr ",")) tz
                  (py_or delim (PStr ";")) fmt u).2 ∧
        (fallback_mode file_path (py_or dec (PStr ",")) tz
           (py_or delim (PStr ";")) fmt u).2 = Ok (stats, u))).
Proof.
  intros Hp.
  destruct (handle_arguments file_path call) as [[[[[dec tz] delim] fmt] u0]|e] eqn:Ha.
  2:{ by rewrite (prepare_data_to_import_no_arguments _ _ _ Ha) in Hp. }
  destruct (try_bdf_mode file_path call (py_or dec (PStr ",")) tz
              (py_or delim (PStr ";")) fmt u0).2 as [[stats' u']|e] eqn:Hb.
  - rewrite (prepare_data_to_import_bdf _ _ _ _ _ _ _ _ Ha Hb) in Hp.
    injection Hp as <- <- <-.
    destruct (try_bdf_mode_Ok _ _ _ _ _ _ _ _ _ Hb) as [-> _].
    exists dec, tz, delim, fmt. split; [done|]. by left.
  - rewrite (prepare_data_to_import_fallback _ _ _ _ _ _ _ _ Ha Hb) in Hp.
    injection Hp as <- Hf.
    destruct (fallback_mode_Ok _ _ _ _ _ _ _ _ Hf) as [-> _].
    exists dec, tz, delim, fmt. split; [done|]. right.
    split; [done|]. split; [by exists e|done].
Qed.

End Origin.

(** ** The series of the supplier layout *)

Section BdfSeries.
Context `{W : World} `{H : Helpers} `{S : StatHelpers}.

Lemma bdf_points_consumption c s (pairs : list (StatisticPoint * StatisticPoint)) :
  c ≠ s → flat_map (bdf_points c s c) pairs = pairs.*1.
Proof.
  intros Hne. induction pairs as [|pq pairs IH]; [done|].
  simpl. rewrite IH. unfold bdf_points.
  rewrite decide_True by done. by rewrite decide_False by done.
Qed.

Lemma bdf_points_supply c s (pairs : list (StatisticPoint * StatisticPoint)) :
  c ≠ s → flat_map (bdf_points c s s) pairs = pairs.*2.
Proof.
  intros Hne. induction pairs as [|pq pairs IH]; [done|].
  simpl. rewrite IH. unfold bdf_points.
  rewrite decide_False by done. by rewrite decide_True by done.
Qed.

Lemma bdf_points_same s (pairs : list (StatisticPoint * StatisticPoint)) :
  flat_map (bdf_points s s s) pairs = flat_map (λ pq, [pq.1; pq.2]) pairs.
Proof.
  induction pairs as [|pq pairs IH]; [done|].
  simpl. rewrite IH. unfold bdf_points. rewrite !decide_True by done. done.
Qed.

Lemma bdf_points_other c s k (pairs : list (StatisticPoint * StatisticPoint)) :
  k ≠ c → k ≠ s → flat_map (bdf_points c s k) pairs = [].
Proof.
  intros Hc Hs. induction pairs as [|pq pairs IH]; [done|].
  simpl. rewrite IH. unfold bdf_points. rewrite !decide_False by done. done.
Qed.

Lemma flat_map_pairs_length {A} (pairs : list (A * A)) :
  length (flat_map (λ pq, [pq.1; pq.2]) pairs) = 2 * length pairs.
Proof. induction pairs as [|pq pairs IH]; simpl; lia. Qed.

(** The result of [handle_dataframe_bdf], series by series: the supply
    series always carries the metadata made for it; the consumption series
    carries its own when the identifiers differ; there is no other
    series. *)
Lemma handle_dataframe_bdf_series df tz fmt u c s uc us (stats : Stats) :
  handle_dataframe_bdf df tz fmt u c s uc us = Ok stats →
  ∃ timezone src_c un_c src_s un_s pairs,
    ZoneInfo_new tz = Ok timezone ∧
    get_source c = Ok src_c ∧ add_unit_to_dataframe src_c u uc c = Ok un_c ∧
    get_source s = Ok src_s ∧ add_unit_to_dataframe src_s u us s = Ok un_s ∧
    Forall2 (bdf_stats timezone fmt) (rows df) pairs ∧
    stats !! s = Some (bdf_metadata src_s s un_s, flat_map (bdf_points c s s) pairs) ∧
    (c ≠ s →
     stats !! c = Some (bdf_metadata src_c c un_c, flat_map (bdf_points c s c) pairs)) ∧
    (∀ k, k ≠ c → k ≠ s → stats !! k = None).
Proof.
  intros Hb.
  apply handle_dataframe_bdf_Ok_inv in Hb
    as (timezone & src_c & un_c & src_s & un_s & pairs & Hz & Hsc & Huc & Hss & Hus
        & Hpairs & Hall).
  exists timezone, src_c, un_c, src_s, un_s, pairs.
  repeat (split; [done|]). split; [|split].
  - by rewrite Hall, lookup_insert_eq.
  - intros Hne. by rewrite Hall, lookup_insert_ne, lookup_insert_eq.
  - intros k Hc Hs. by rewrite Hall, !lookup_insert_ne, lookup_empty.
Qed.

(** Every series of the supplier layout is a sum series. *)
Lemma handle_dataframe_bdf_kind df tz fmt u c s uc us (stats : Stats) k md pts :
  handle_dataframe_bdf df tz fmt u c s uc us = Ok stats →
  stats !! k = Some (md, pts) →
  has_mean md = false ∧ has_sum md = true ∧ statistic_id md = k.
Proof.
  intros Hb Hk.
  apply handle_dataframe_bdf_series in Hb
    as (timezone & src_c & un_c & src_s & un_s & pairs & _ & _ & _ & _ & _ & _
        & Hs & Hc & Hother).
  destruct (decide (k = s)) as [->|Hks].
  - rewrite Hs in Hk. by injection Hk as <- _.
  - destruct (decide (k = c)) as [->|Hkc].
    + rewrite Hc in Hk by done. by injection Hk as <- _.
    + by rewrite Hother in Hk.
Qed.

End BdfSeries.

(** * The claims *)

Section Claims.
Context `{W : World} `{H : Helpers} `{S : StatHelpers}.

(** C7: argument resolution validates in a fixed order before any file
    parsing.  If the input path does not exist, the call fails with a
    message that includes the path, whatever the timezone identifier is;
    if the path exists and the timezone identifier does not resolve, it
    fails with a message that includes the identifier (for a text
    identifier, the identifier itself).  In both cases the trace of parses
    is empty: no parsing of the file is attempted. *)
Theorem C7_arguments_validated_in_order file_path call :
  (path_exists file_path = false →
   handle_arguments file_path call
   = Err (HomeAssistantError ("path " ++ file_path ++ " does not exist.")) ∧
   prepare_data_to_import file_path call
   = ([], Err (HomeAssistantError ("path " ++ file_path ++ " does not exist.")))) ∧
  (path_exists file_path = true →
   is_Err (ZoneInfo_new (data_get call ATTR_TIMEZONE_IDENTIFIER PNone)) →
   handle_arguments file_path call
   = Err (HomeAssistantError
            ("Invalid timezone_identifier: "
             ++ py_str (data_get call ATTR_TIMEZONE_IDENTIFIER PNone))) ∧
   prepare_data_to_import file_path call
   = ([], Err (HomeAssistantError
                 ("Invalid timezone_identifier: "
                  ++ py_str (data_get call ATTR_TIMEZONE_IDENTIFIER PNone))))) ∧
  (∀ identifier,
     path_exists file_path = true →
     data call !! ATTR_TIMEZONE_IDENTIFIER = Some (PStr identifier) →
     zone_exists identifier = false →
     prepare_data_to_import file_path call
     = ([], Err (HomeAssistantError ("Invalid timezone_identifier: " ++ identifier)))).
Proof.
  split; [|split].
  - intros Hp. pose proof (handle_arguments_no_path file_path call Hp) as Ha.
    split; [done|]. by apply prepare_data_to_import_no_arguments.
  - intros Hp [e Hz]. pose proof (handle_arguments_bad_zone file_path call e Hp Hz) as Ha.
    split; [done|]. by apply prepare_data_to_import_no_arguments.
  - intros identifier Hp Hid Hz.
    apply prepare_data_to_import_no_arguments.
    assert (data_get call ATTR_TIMEZONE_IDENTIFIER PNone = PStr identifier) as Hget
      by (unfold data_get; by rewrite Hid).
    rewrite (handle_arguments_bad_zone file_path call (zone_error identifier) Hp).
    + by rewrite Hget.
    + rewrite Hget. simpl. by rewrite Hz.
Qed.

(** C8: the resolved options.  When argument resolution succeeds, the
    decimal separator is [","] if the decimal flag is absent or true and
    ["."] if it is false; an absent delimiter becomes [";"]; an absent
    datetime format becomes ["%d.%m.%Y %H:%M"]; the unit source is [ENTITY]
    if the unit-from-entity flag is true and [TABLE] otherwise.  These are
    the values both parses are started with, and the unit source is the one
    handed back with the Output. *)
Theorem C8_resolved_option_defaults file_path call dec tz delim fmt u :
  handle_arguments file_path call = Ok (dec, tz, delim, fmt, u) →
  (data call !! ATTR_DECIMAL = None ∨ data call !! ATTR_DECIMAL = Some (PBool true) →
   py_or dec (PStr ",") = PStr ",") ∧
  (data call !! ATTR_DECIMAL = Some (PBool false) → py_or dec (PStr ",") = PStr ".") ∧
  (data call !! ATTR_DELIMITER = None → py_or delim (PStr ";") = PStr ";") ∧
  (data call !! ATTR_DATETIME_FORMAT = None → fmt = PStr "%d.%m.%Y %H:%M") ∧
  (data call !! ATTR_UNIT_FROM_ENTITY = Some (PBool true) → u = ENTITY) ∧
  (data call !! ATTR_UNIT_FROM_ENTITY ≠ Some (PBool true) → u = TABLE) ∧
  prepare_data_to_import file_path call
  = try_except
      (try_bdf_mode file_path call (py_or dec (PStr ",")) tz (py_or delim (PStr ";")) fmt u)
      (λ _, fallback_mode file_path (py_or dec (PStr ",")) tz (py_or delim (PStr ";")) fmt u) ∧
  (∀ t stats u', prepare_data_to_import file_path call = (t, Ok (stats, u')) → u' = u).
Proof.
  intros Ha.
  pose proof (handle_arguments_Ok_inv _ _ _ _ _ _ _ Ha)
    as (_ & _ & Hdec & _ & Hdelim & Hfmt & Hu).
  unfold data_get in *.
  repeat split.
  - intros [Hd|Hd]; rewrite Hd in Hdec; by subst.
  - intros Hd. rewrite Hd in Hdec. by subst.
  - intros Hd. rewrite Hd in Hdelim. by subst.
  - intros Hd. rewrite Hd in Hfmt. by subst.
  - intros Hd. rewrite Hd in Hu. by subst.
  - intros Hd. rewrite Hu.
    destruct (data call !! ATTR_UNIT_FROM_ENTITY) as [[| [|] | | | |]|]; done.
  - by apply prepare_data_to_import_unfold.
  - intros t stats u' Hp.
    apply prepare_data_to_import_Ok_inv in Hp as (dec' & tz' & delim' & fmt' & Ha' & _).
    rewrite Ha in Ha'. by injection Ha' as _ _ _ _ ->.
Qed.

(** C2: once the arguments are resolved, the specialised parse is started
    first.  If the specialised attempt returns, its Output is the result
    and the generic parse is never started; if it raises -- a required
    column is absent from the header, the restricted parse fails, or
    anything else in the attempt raises -- the exception is dropped, the
    generic parse of the whole file is started, and the result is that of
    the generic pipeline. *)
Theorem C2_specialised_first_then_fallback file_path call dec tz delim fmt u :
  handle_arguments file_path call = Ok (dec, tz, delim, fmt, u) →
  let sep := py_or delim (PStr ";") in
  let decimal := py_or dec (PStr ",") in
  let attempt := try_bdf_mode file_path call decimal tz sep fmt u in
  let fallback := fallback_mode file_path decimal tz sep fmt u in
  attempt.1 = [ReadCsv file_path sep decimal (Some BDF_USECOLS)] ∧
  fallback.1 = [ReadCsv file_path sep decimal None] ∧
  (∀ out, attempt.2 = Ok out →
     prepare_data_to_import file_path call
     = ([ReadCsv file_path sep decimal (Some BDF_USECOLS)], Ok out)) ∧
  (∀ e, attempt.2 = Err e →
     prepare_data_to_import file_path call
     = ([ReadCsv file_path sep decimal (Some BDF_USECOLS);
         ReadCsv file_path sep decimal None], fallback.2)) ∧
  (∀ df col, read_table file_path sep decimal = Ok df →
     col ∈ BDF_USECOLS → col ∉ columns df → is_Err attempt.2) ∧
  (∀ e, (read_csv file_path sep decimal (Some BDF_USECOLS)).2 = Err e →
     attempt.2 = Err e).
Proof.
  intros Ha sep decimal attempt fallback. subst attempt fallback.
  split; [apply try_bdf_mode_trace|]. split; [apply fallback_mode_trace|].
  split; [intros out; by apply prepare_data_to_import_bdf|].
  split; [intros e; by apply prepare_data_to_import_fallback|].
  split.
  - intros df col Hdf Hcol Hno. rewrite try_bdf_mode_result.
    destruct (read_csv_usecols_absent _ _ _ _ _ Hdf Hcol Hno) as [e ->]. by exists e.
  - intros e He. rewrite try_bdf_mode_result. by rewrite He.
Qed.

(** C4: the aggregation kind of a generic table.  If the columns contain
    both of [mean] and [sum], or neither, [handle_dataframe] raises; with
    columns that pass the column check it raises the error of that very
    case.  If exactly one is present, processing goes on to the rows with
    that column as the aggregation kind, and every series of the result
    carries it.  When nothing else can raise, the function raises if and
    only if both or neither are present. *)
Theorem C4_mean_xor_sum df tz fmt u :
  let mean_col := bool_decide ("mean" ∈ columns df) in
  let sum_col := bool_decide ("sum" ∈ columns df) in
  (mean_col = sum_col → is_Err (handle_dataframe df tz fmt u)) ∧
  (are_columns_valid df u = Ok true → mean_col = true → sum_col = true →
   handle_dataframe df tz fmt u
   = Err (HomeAssistantError
            "Implementation error: both 'mean' and 'sum' columns are present.")) ∧
  (are_columns_valid df u = Ok true → mean_col = false → sum_col = false →
   handle_dataframe df tz fmt u
   = Err (HomeAssistantError "Input must contain either a 'mean' or a 'sum' column.")) ∧
  (are_columns_valid df u = Ok true → mean_col ≠ sum_col →
   handle_dataframe df tz fmt u
   = (timezone ← ZoneInfo_new tz;
      foldlM (handle_dataframe_row mean_col sum_col timezone fmt u) ∅ (rows df))) ∧
  (∀ stats k md pts,
     handle_dataframe df tz fmt u = Ok stats → stats !! k = Some (md, pts) →
     mean_col ≠ sum_col ∧ has_mean md = mean_col ∧ has_sum md = sum_col) ∧
  (∀ timezone,
     are_columns_valid df u = Ok true → ZoneInfo_new tz = Ok timezone →
     is_Ok (foldlM (handle_dataframe_row mean_col sum_col timezone fmt u) ∅ (rows df)) →
     (is_Err (handle_dataframe df tz fmt u) ↔ mean_col = sum_col)).
Proof.
  intros mean_col sum_col. subst mean_col sum_col.
  split; [apply handle_dataframe_ambiguous|].
  split; [|split].
  - intros Hv Hm Hs. unfold handle_dataframe. rewrite Hv. simpl. by rewrite Hm, Hs.
  - intros Hv Hm Hs. unfold handle_dataframe. rewrite Hv. simpl. by rewrite Hm, Hs.
  - split; [apply handle_dataframe_unfold|]. split.
    + intros stats k md pts Hdf Hk.
      destruct (handle_dataframe_series _ _ _ _ _ _ _ _ Hdf Hk) as (Hm & Hs & _).
      by apply handle_dataframe_Ok_inv in Hdf as (_ & ? & _).
    + intros timezone Hv Hz [stats Hloop]. split.
      * intros [e He].
        destruct (decide (bool_decide ("mean" ∈ columns df)
                          = bool_decide ("sum" ∈ columns df))) as [|Hne]; [done|].
        rewrite (handle_dataframe_unfold _ _ _ _ Hv Hne), Hz in He.
        simpl in He. congruence.
      * apply handle_dataframe_ambiguous.
Qed.

End Claims.

(** Witnesses: the theorems at work in the sample world. *)

Lemma C7_arguments_validated_in_order_witness :
  prepare_data_to_import (W := Sample.w) (H := Sample.helpers) (S := Sample.stat_helpers)
    "nope.csv" Sample.call_bad_zone
  = ([], Err (HomeAssistantError "path nope.csv does not exist.")) ∧
  prepare_data_to_import (W := Sample.w) (H := Sample.helpers) (S := Sample.stat_helpers)
    "generic.csv" Sample.call_bad_zone
  = ([], Err (HomeAssistantError "Invalid timezone_identifier: Not/AZone")).
Proof.
  split.
  - destruct (C7_arguments_validated_in_order (W := Sample.w) (H := Sample.helpers)
                (S := Sample.stat_helpers) "nope.csv" Sample.call_bad_zone)
      as (Hpath & _).
    apply Hpath. reflexivity.
  - destruct (C7_arguments_validated_in_order (W := Sample.w) (H := Sample.helpers)
                (S := Sample.stat_helpers) "generic.csv" Sample.call_bad_zone)
      as (_ & _ & Hzone).
    apply (Hzone "Not/AZone"); reflexivity.
Defined.

Lemma C8_resolved_option_defaults_witness :
  py_or (PStr ",") (PStr ",") = PStr "," ∧
  py_or PNone (PStr ";") = PStr ";" ∧
  PStr DATETIME_DEFAULT_FORMAT = PStr "%d.%m.%Y %H:%M" ∧
  (∀ t stats u',
     prepare_data_to_import (W := Sample.w) (H := Sample.helpers)
       (S := Sample.stat_helpers) "generic.csv" Sample.call_utc = (t, Ok (stats, u')) →
     u' = TABLE).
Proof.
  pose proof (C8_resolved_option_defaults (W := Sample.w) (H := Sample.helpers)
                (S := Sample.stat_helpers) "generic.csv" Sample.call_utc
                (PStr ",") (PStr "UTC") PNone (PStr DATETIME_DEFAULT_FORMAT) TABLE
                eq_refl) as (Hdec & _ & Hdelim & Hfmt & _ & _ & _ & Hu).
  split; [apply Hdec; left; reflexivity|].
  split; [apply Hdelim; reflexivity|].
  split; [apply Hfmt; reflexivity|exact Hu].
Defined.

Lemma C2_specialised_first_then_fallback_witness :
  prepare_data_to_import (W := Sample.w) (H := Sample.helpers) (S := Sample.stat_helpers)
    "generic.csv" Sample.call_utc
  = ([ReadCsv "generic.csv" (PStr ";") (PStr ",") (Some BDF_USECOLS);
      ReadCsv "generic.csv" (PStr ";") (PStr ",") None],
     (fallback_mode (W := Sample.w) (H := Sample.helpers) (S := Sample.stat_helpers)
        "generic.csv" (PStr ",") (PStr "UTC") (PStr ";")
        (PStr DATETIME_DEFAULT_FORMAT) TABLE).2).
Proof.
  pose proof (C2_specialised_first_then_fallback (W := Sample.w) (H := Sample.helpers)
                (S := Sample.stat_helpers) "generic.csv" Sample.call_utc
                (PStr ",") (PStr "UTC") PNone (PStr DATETIME_DEFAULT_FORMAT) TABLE
                eq_refl) as (_ & _ & _ & Hfall & _).
  apply (Hfall (ValueError "Usecols do not match columns")). reflexivity.
Defined.

Lemma C4_mean_xor_sum_witness :
  handle_dataframe (W := Sample.w) (H := Sample.helpers) (S := Sample.stat_helpers)
    {| columns := ["statistic_id"; "start"; "mean"; "sum"]; rows := [] |}
    (PStr "UTC") (PStr DATETIME_DEFAULT_FORMAT) TABLE
  = Err (HomeAssistantError
           "Implementation error: both 'mean' and 'sum' columns are present.") ∧
  handle_dataframe (W := Sample.w) (H := Sample.helpers) (S := Sample.stat_helpers)
    {| columns := ["statistic_id"; "start"]; rows := [] |}
    (PStr "UTC") (PStr DATETIME_DEFAULT_FORMAT) TABLE
  = Err (HomeAssistantError "Input must contain either a 'mean' or a 'sum' column.").
Proof.
  split.
  - apply (C4_mean_xor_sum (W := Sample.w) (H := Sample.helpers) (S := Sample.stat_helpers));
      reflexivity.
  - apply (C4_mean_xor_sum (W := Sample.w) (H := Sample.helpers) (S := Sample.stat_helpers));
      reflexivity.
Defined.

Section AccumulatorClaims.
Context `{W : World} `{H : Helpers} `{S : StatHelpers}.

(** C5: in every Output, each series has exactly one of [has_mean] and
    [has_sum] set.  In the generic layout all series carry the kind read
    once off the header; in the specialised layout every series has
    [has_sum] set and [has_mean] not; so all series of one Output share one
    kind. *)
Theorem C5_one_aggregation_kind :
  (∀ df tz fmt u stats,
     handle_dataframe df tz fmt u = Ok stats →
     bool_decide ("mean" ∈ columns df) = negb (bool_decide ("sum" ∈ columns df)) ∧
     ∀ k md pts, stats !! k = Some (md, pts) →
       has_mean md = bool_decide ("mean" ∈ columns df) ∧
       has_sum md = bool_decide ("sum" ∈ columns df)) ∧
  (∀ df tz fmt u c s uc us stats,
     handle_dataframe_bdf df tz fmt u c s uc us = Ok stats →
     ∀ k md pts, stats !! k = Some (md, pts) →
       has_mean md = false ∧ has_sum md = true) ∧
  (∀ file_path call t stats u,
     prepare_data_to_import file_path call = (t, Ok (stats, u)) →
     ∃ kind : bool, ∀ k md pts, stats !! k = Some (md, pts) →
       has_mean md = kind ∧ has_sum md = negb kind ∧
       xorb (has_mean md) (has_sum md) = true).
Proof.
  split; [|split].
  - intros df tz fmt u stats Hdf. split.
    + apply handle_dataframe_Ok_inv in Hdf as (_ & Hx & _).
      by destruct (bool_decide ("mean" ∈ columns df)), (bool_decide ("sum" ∈ columns df)).
    + intros k md pts Hk.
      by destruct (handle_dataframe_series _ _ _ _ _ _ _ _ Hdf Hk) as (? & ? & _).
  - intros df tz fmt u c s uc us stats Hb k md pts Hk.
    by destruct (handle_dataframe_bdf_kind _ _ _ _ _ _ _ _ _ _ _ _ Hb Hk) as (? & ? & _).
  - intros file_path call t stats u Hp.
    apply prepare_data_to_import_Ok_inv in Hp
      as (dec & tz & delim & fmt & _ & [[_ Hb]|(_ & _ & Hf)]).
    + apply try_bdf_mode_Ok in Hb as (_ & raw & c & s & _ & _ & _ & Hb).
      exists false. intros k md pts Hk.
      destruct (handle_dataframe_bdf_kind _ _ _ _ _ _ _ _ _ _ _ _ Hb Hk) as (-> & -> & _).
      done.
    + apply fallback_mode_Ok in Hf as (_ & df & _ & Hdf).
      exists (bool_decide ("mean" ∈ columns df)). intros k md pts Hk.
      destruct (handle_dataframe_series _ _ _ _ _ _ _ _ Hdf Hk) as (-> & -> & _).
      apply handle_dataframe_Ok_inv in Hdf as (_ & Hx & _).
      by destruct (bool_decide ("mean" ∈ columns df)), (bool_decide ("sum" ∈ columns df)).
Qed.

(** C10: with the same identifier configured for both series,
    [handle_dataframe_bdf] returns as soon as the columns are there, the
    zone resolves, the helpers answer and both points of every row can be
    built; its result has exactly one key; the metadata stored under it is
    the one made second, with the unit resolved from the supply hint; and
    its points are the consumption and supply points of the rows
    interleaved, two per row. *)
Theorem C10_same_identifier df tz fmt u id uc us :
  (∀ timezone src un_c un_s pairs,
     "start" ∈ columns df → "consumption" ∈ columns df → "supply" ∈ columns df →
     ZoneInfo_new tz = Ok timezone →
     get_source id = Ok src →
     add_unit_to_dataframe src u uc id = Ok un_c →
     add_unit_to_dataframe src u us id = Ok un_s →
     Forall2 (bdf_stats timezone fmt) (rows df) pairs →
     is_Ok (handle_dataframe_bdf df tz fmt u id id uc us)) ∧
  (∀ stats : Stats,
     handle_dataframe_bdf df tz fmt u id id uc us = Ok stats →
     dom stats = {[id]} ∧ size stats = 1 ∧
     ∃ timezone src un_s pairs,
       ZoneInfo_new tz = Ok timezone ∧
       get_source id = Ok src ∧
       add_unit_to_dataframe src u us id = Ok un_s ∧
       Forall2 (bdf_stats timezone fmt) (rows df) pairs ∧
       stats !! id
       = Some ({| has_mean := false; has_sum := true; source := src;
                  statistic_id := id; name := None; unit_of_measurement := un_s |},
               flat_map (λ pq, [pq.1; pq.2]) pairs) ∧
       length (flat_map (λ pq : StatisticPoint * StatisticPoint, [pq.1; pq.2]) pairs)
       = 2 * length (rows df)).
Proof.
  split.
  - intros timezone src un_c un_s pairs H1 H2 H3 Hz Hsrc Huc Hus Hpairs.
    by eapply (handle_dataframe_bdf_total df tz fmt u id id uc us timezone src un_c src un_s).
  - intros stats Hb.
    pose proof (handle_dataframe_bdf_dom _ _ _ _ _ _ _ _ _ Hb) as Hdom.
    assert (dom stats = {[id]}) as Hdom' by (rewrite Hdom; apply (idemp_L (∪))).
    split; [done|]. split.
    { by rewrite <- size_dom, Hdom', size_singleton. }
    apply handle_dataframe_bdf_series in Hb
      as (timezone & src_c & un_c & src_s & un_s & pairs & Hz & _ & _ & Hss & Hus & Hpairs
          & Hs & _).
    exists timezone, src_s, un_s, pairs. repeat (split; [done|]). split.
    + by rewrite Hs, bdf_points_same.
    + rewrite flat_map_pairs_length. by rewrite (Forall2_length _ _ _ Hpairs).
Qed.

End AccumulatorClaims.

Section SpecialisedClaims.
Context `{W : World} `{H : Helpers} `{S : StatHelpers}.

(** The table restricted to the supplier's columns and renamed has the
    columns [handle_dataframe_bdf] requires. *)
Lemma bdf_columns_present df :
  Forall (λ col, col ∈ columns df) BDF_USECOLS →
  Forall (λ col,
            col ∈ columns (rename [(CSV_COL_DATETIME, "start");
                                   (CSV_COL_CONSUMPTION, "consumption");
                                   (CSV_COL_SUPPLY, "supply")]
                             (select_columns BDF_USECOLS df)))
         ["start"; "consumption"; "supply"].
Proof.
  intros Hall. rewrite Forall_forall in Hall.
  assert (∀ old new,
            old ∈ BDF_USECOLS →
            rename_label [(CSV_COL_DATETIME, "start"); (CSV_COL_CONSUMPTION, "consumption");
                          (CSV_COL_SUPPLY, "supply")] old = new →
            new ∈ columns (rename [(CSV_COL_DATETIME, "start");
                                   (CSV_COL_CONSUMPTION, "consumption");
                                   (CSV_COL_SUPPLY, "supply")]
                             (select_columns BDF_USECOLS df))) as Hone.
  { intros old new Hold <-. unfold rename, select_columns. cbn [columns].
    apply list_elem_of_In, in_map, list_elem_of_In.
    apply list_elem_of_filter. split; [done|]. by apply Hall. }
  repeat constructor.
  - apply (Hone CSV_COL_DATETIME); [|reflexivity]. by apply list_elem_of_here.
  - apply (Hone CSV_COL_CONSUMPTION); [|reflexivity].
    apply list_elem_of_further, list_elem_of_here.
  - apply (Hone CSV_COL_SUPPLY); [|reflexivity].
    do 2 apply list_elem_of_further. apply list_elem_of_here.
Qed.

Lemma size_two_keys (stats : Stats) c s :
  dom stats = {[c; s]} → c ≠ s → size stats = 2.
Proof.
  intros Hdom Hne. rewrite <- size_dom, Hdom, size_union, !size_singleton; [done|].
  by apply disjoint_singleton_l, not_elem_of_singleton.
Qed.

Lemma size_one_key (stats : Stats) c :
  dom stats = {[c; c]} → size stats = 1.
Proof.
  intros Hdom. rewrite <- size_dom, Hdom.
  replace ({[c; c]} : gset string) with ({[c]} : gset string)
    by (symmetry; apply (idemp_L (∪))).
  apply size_singleton.
Qed.

(** C3 (as amended): for a file whose header contains the three supplier
    columns, whatever else it contains, and for two different configured
    identifiers, the specialised attempt is [handle_dataframe_bdf] on a
    table that has the three required columns.  If that attempt raises no
    exception, its Output is the result of the whole transformation, only
    the specialised parse has run, and the Output has exactly two keys: the
    consumption identifier and the supply identifier. *)
Theorem C3_two_series file_path call dec tz delim fmt u df c s :
  handle_arguments file_path call = Ok (dec, tz, delim, fmt, u) →
  read_table file_path (py_or delim (PStr ";")) (py_or dec (PStr ",")) = Ok df →
  Forall (λ col, col ∈ columns df) BDF_USECOLS →
  as_str (data_get call ATTR_STAT_ID_CONSUMPTION (PStr "sensor.energy_consumption"))
  = Ok c →
  as_str (data_get call ATTR_STAT_ID_SUPPLY (PStr "sensor.energy_supply")) = Ok s →
  c ≠ s →
  let sep := py_or delim (PStr ";") in
  let decimal := py_or dec (PStr ",") in
  let bdf_df := rename [(CSV_COL_DATETIME, "start"); (CSV_COL_CONSUMPTION, "consumption");
                        (CSV_COL_SUPPLY, "supply")] (select_columns BDF_USECOLS df) in
  Forall (λ col, col ∈ columns bdf_df) ["start"; "consumption"; "supply"] ∧
  (try_bdf_mode file_path call decimal tz sep fmt u).2
  = (stats ← handle_dataframe_bdf bdf_df tz fmt u c s
                (data_get call ATTR_UNIT_CONSUMPTION (PStr ""))
                (data_get call ATTR_UNIT_SUPPLY (PStr ""));
     Ok (stats, u)) ∧
  ∀ stats u',
    (try_bdf_mode file_path call decimal tz sep fmt u).2 = Ok (stats, u') →
    prepare_data_to_import file_path call
    = ([ReadCsv file_path sep decimal (Some BDF_USECOLS)], Ok (stats, u')) ∧
    dom stats = {[c; s]} ∧
    size stats = 2.
Proof.
  intros Ha Hdf Hall Hc Hs Hne sep decimal bdf_df. subst sep decimal bdf_df.
  assert ((try_bdf_mode file_path call (py_or dec (PStr ",")) tz
             (py_or delim (PStr ";")) fmt u).2
          = (stats ← handle_dataframe_bdf
                       (rename [(CSV_COL_DATETIME, "start");
                                (CSV_COL_CONSUMPTION, "consumption");
                                (CSV_COL_SUPPLY, "supply")]
                          (select_columns BDF_USECOLS df)) tz fmt u c s
                       (data_get call ATTR_UNIT_CONSUMPTION (PStr ""))
                       (data_get call ATTR_UNIT_SUPPLY (PStr ""));
             Ok (stats, u))) as Hattempt.
  { rewrite try_bdf_mode_result.
    by rewrite (read_csv_usecols_present _ _ _ _ Hdf Hall), Hc, Hs. }
  split; [by apply bdf_columns_present|]. split; [done|].
  intros stats u' Hb. split; [by eapply prepare_data_to_import_bdf|].
  rewrite Hattempt in Hb. inv_bind Hb as stats' Hst. injection Hb as <- _.
  pose proof (handle_dataframe_bdf_dom _ _ _ _ _ _ _ _ _ Hst) as Hdom.
  split; [done|]. by apply (size_two_keys stats' c s).
Qed.

End SpecialisedClaims.

Section TimestampClaims.
Context `{W : World} `{H : Helpers}.
Variable strptime : string → string → option NaiveDateTime.

#[local] Hint Extern 0 StatHelpers =>
  exact (spec_stat_helpers strptime) : typeclass_instances.

(** With the helpers of the specification, a row whose timestamp text does
    not parse yields no point, in either layout. *)
Lemma row_stat_malformed has_mean_col timezone f row text :
  row_lookup row "start" = Some (PStr text) →
  strptime text f = None →
  row_stat has_mean_col timezone (PStr f) row
  = Err (ValueError "time data does not match format").
Proof.
  intros Hstart Hparse.
  unfold row_stat, get_mean_stat, get_sum_stat, spec_stat_helpers,
    get_mean_stat_spec, get_sum_stat_spec, row_getitem.
  rewrite Hstart. simpl. rewrite Hparse. by destruct has_mean_col.
Qed.

Lemma cons_stat_malformed timezone f row text :
  row_lookup row "start" = Some (PStr text) →
  strptime text f = None →
  is_Err (cons_stat timezone (PStr f) row).
Proof.
  intros Hstart Hparse. unfold cons_stat, row_getitem. rewrite Hstart. simpl.
  destruct (row_lookup row "consumption") as [cv|]; simpl; [|by eexists].
  unfold get_sum_stat_spec, row_getitem. simpl. rewrite Hparse. by eexists.
Qed.

Lemma handle_dataframe_malformed df tz f u row text :
  row ∈ rows df →
  row_lookup row "start" = Some (PStr text) →
  strptime text f = None →
  is_Err (handle_dataframe df tz (PStr f) u).
Proof.
  intros Hin Hstart Hparse.
  destruct (handle_dataframe df tz (PStr f) u) as [stats|e] eqn:Hdf; [|by exists e].
  apply handle_dataframe_Ok_inv in Hdf as (_ & _ & timezone & _ & Hloop).
  apply generic_loop_each_row in Hloop. rewrite Forall_forall in Hloop.
  destruct (Hloop _ Hin) as [p Hp].
  by rewrite (row_stat_malformed _ _ _ _ _ Hstart Hparse) in Hp.
Qed.

Lemma handle_dataframe_bdf_malformed df tz f u c s uc us row text :
  row ∈ rows df →
  row_lookup row "start" = Some (PStr text) →
  strptime text f = None →
  is_Err (handle_dataframe_bdf df tz (PStr f) u c s uc us).
Proof.
  intros Hin Hstart Hparse.
  destruct (handle_dataframe_bdf df tz (PStr f) u c s uc us) as [stats|e] eqn:Hb;
    [|by exists e].
  apply handle_dataframe_bdf_Ok_inv in Hb
    as (timezone & ? & ? & ? & ? & pairs & _ & _ & _ & _ & _ & Hpairs & _).
  apply list_elem_of_lookup in Hin as [i Hi].
  destruct (Forall2_lookup_l _ _ _ _ _ Hpairs Hi) as (pq & _ & Hpq & _).
  destruct (cons_stat_malformed timezone f row text Hstart Hparse) as [e He].
  congruence.
Qed.

(** C1 (as amended): a row whose timestamp text does not parse against the
    resolved datetime format makes the pipeline that reads it raise, with
    no partial result: both [handle_dataframe] and [handle_dataframe_bdf]
    raise.  In the specialised layout that exception is caught like any
    other of the attempt: the generic parse of the whole file runs and its
    result, Output or exception, is what the caller gets.  In the generic
    layout (the pipeline that runs after a failed attempt) the whole
    transformation raises and no Output is produced. *)
Theorem C1_malformed_timestamp file_path call dec tz delim f u :
  handle_arguments file_path call = Ok (dec, tz, delim, PStr f, u) →
  let sep := py_or delim (PStr ";") in
  let decimal := py_or dec (PStr ",") in
  let attempt := try_bdf_mode file_path call decimal tz sep (PStr f) u in
  let fallback := fallback_mode file_path decimal tz sep (PStr f) u in
  (∀ df row text c s uc us,
     row ∈ rows df → row_lookup row "start" = Some (PStr text) →
     strptime text f = None →
     is_Err (handle_dataframe df tz (PStr f) u) ∧
     is_Err (handle_dataframe_bdf df tz (PStr f) u c s uc us)) ∧
  (∀ raw row text,
     read_table file_path sep decimal = Ok raw →
     row ∈ rows (rename [(CSV_COL_DATETIME, "start");
                         (CSV_COL_CONSUMPTION, "consumption");
                         (CSV_COL_SUPPLY, "supply")] (select_columns BDF_USECOLS raw)) →
     row_lookup row "start" = Some (PStr text) →
     strptime text f = None →
     is_Err attempt.2 ∧
     prepare_data_to_import file_path call
     = ([ReadCsv file_path sep decimal (Some BDF_USECOLS);
         ReadCsv file_path sep decimal None], fallback.2)) ∧
  (∀ df row text,
     read_table file_path sep decimal = Ok df →
     row ∈ rows df → row_lookup row "start" = Some (PStr text) →
     strptime text f = None →
     is_Err attempt.2 →
     ∃ e, prepare_data_to_import file_path call
          = ([ReadCsv file_path sep decimal (Some BDF_USECOLS);
              ReadCsv file_path sep decimal None], Err e)).
Proof.
  intros Ha sep decimal attempt fallback. split; [|split].
  - intros df row text c s uc us Hin Hstart Hparse. split.
    + by eapply handle_dataframe_malformed.
    + by eapply handle_dataframe_bdf_malformed.
  - intros raw row text Hraw Hin Hstart Hparse.
    assert (is_Err attempt.2) as [e He].
    { destruct attempt.2 as [[stats u']|e] eqn:Hb; [|by exists e].
      apply try_bdf_mode_Ok in Hb as (_ & raw' & c & s & Hraw' & _ & _ & Hb).
      apply (read_csv_usecols_Ok _ _ _ _ _ Hraw) in Hraw' as [_ ->].
      destruct (handle_dataframe_bdf_malformed _ tz f u c s
                  (data_get call ATTR_UNIT_CONSUMPTION (PStr ""))
                  (data_get call ATTR_UNIT_SUPPLY (PStr "")) row text Hin Hstart Hparse)
        as [e He].
      congruence. }
    split; [by exists e|]. by eapply prepare_data_to_import_fallback.
  - intros df row text Hdf Hin Hstart Hparse [e He].
    destruct (handle_dataframe_malformed df tz f u row text Hin Hstart Hparse) as [e' He'].
    exists e'. rewrite (prepare_data_to_import_fallback _ _ _ _ _ _ _ _ Ha He).
    f_equal. rewrite fallback_mode_result.
    fold sep decimal. by rewrite Hdf; simpl; rewrite He'.
Qed.

End TimestampClaims.

(** ** The sample files *)

Lemma sample_generic :
  prepare_data_to_import (W := Sample.w) (H := Sample.helpers) (S := Sample.stat_helpers)
    "generic.csv" Sample.call_utc
  = ([ReadCsv "generic.csv" (PStr ";") (PStr ",") (Some BDF_USECOLS);
      ReadCsv "generic.csv" (PStr ";") (PStr ",") None],
     Ok (Sample.generic_stats, TABLE)).
Proof. vm_compute. reflexivity. Qed.

Lemma sample_bdf :
  prepare_data_to_import (W := Sample.w) (H := Sample.helpers) (S := Sample.stat_helpers)
    "bdf.csv" Sample.call_utc
  = ([ReadCsv "bdf.csv" (PStr ";") (PStr ",") (Some BDF_USECOLS)],
     Ok (Sample.bdf_default_stats, TABLE)).
Proof. vm_compute. reflexivity. Qed.

Lemma sample_same_id :
  prepare_data_to_import (W := Sample.w) (H := Sample.helpers) (S := Sample.stat_helpers)
    "bdf.csv" Sample.call_same_id
  = ([ReadCsv "bdf.csv" (PStr ";") (PStr ",") (Some BDF_USECOLS)],
     Ok (Sample.same_id_stats, TABLE)).
Proof. vm_compute. reflexivity. Qed.

Lemma sample_mixed :
  prepare_data_to_import (W := Sample.w) (H := Sample.helpers) (S := Sample.stat_helpers)
    "mixed.csv" Sample.call_utc
  = ([ReadCsv "mixed.csv" (PStr ";") (PStr ",") (Some BDF_USECOLS);
      ReadCsv "mixed.csv" (PStr ";") (PStr ",") None],
     Ok (Sample.mixed_stats, TABLE)).
Proof. vm_compute. reflexivity. Qed.

Lemma sample_bad :
  prepare_data_to_import (W := Sample.w) (H := Sample.helpers) (S := Sample.stat_helpers)
    "bad.csv" Sample.call_utc
  = ([ReadCsv "bad.csv" (PStr ";") (PStr ",") (Some BDF_USECOLS);
      ReadCsv "bad.csv" (PStr ";") (PStr ",") None],
     Err (ValueError "time data does not match format")).
Proof. vm_compute. reflexivity. Qed.

Lemma sample_overlong :
  prepare_data_to_import (W := Sample.overlong) (H := Sample.helpers)
    (S := Sample.stat_helpers) "bdf.csv" Sample.call_utc
  = ([ReadCsv "bdf.csv" (PStr ";") (PStr ",") (Some BDF_USECOLS)],
     Ok (Sample.bdf_default_stats, TABLE)).
Proof. vm_compute. reflexivity. Qed.

(** ** The claims on the sample files *)

Lemma C5_one_aggregation_kind_witness :
  ∃ kind : bool, ∀ k md pts,
    Sample.generic_stats !! k = Some (md, pts) →
    has_mean md = kind ∧ has_sum md = negb kind ∧
    xorb (has_mean md) (has_sum md) = true.
Proof.
  destruct (C5_one_aggregation_kind (W := Sample.w) (H := Sample.helpers)
              (S := Sample.stat_helpers)) as (_ & _ & Hwhole).
  apply (Hwhole "generic.csv" Sample.call_utc
           [ReadCsv "generic.csv" (PStr ";") (PStr ",") (Some BDF_USECOLS);
            ReadCsv "generic.csv" (PStr ";") (PStr ",") None]
           Sample.generic_stats TABLE).
  vm_compute. reflexivity.
Defined.

Lemma C10_same_identifier_witness :
  dom Sample.same_id_stats = {["sensor.energy"]} ∧ size Sample.same_id_stats = 1 ∧
  ∃ timezone src un_s pairs,
    ZoneInfo_new (W := Sample.w) (PStr "UTC") = Ok timezone ∧
    get_source (Helpers := Sample.helpers) "sensor.energy" = Ok src ∧
    add_unit_to_dataframe (Helpers := Sample.helpers) src TABLE (PStr "kWh") "sensor.energy"
    = Ok un_s ∧
    Forall2 (bdf_stats (S := Sample.stat_helpers) timezone (PStr DATETIME_DEFAULT_FORMAT))
      (rows Sample.bdf_table) pairs ∧
    Sample.same_id_stats !! "sensor.energy"
    = Some ({| has_mean := false; has_sum := true; source := src;
               statistic_id := "sensor.energy"; name := None;
               unit_of_measurement := un_s |},
            flat_map (λ pq, [pq.1; pq.2]) pairs) ∧
    length (flat_map (λ pq : StatisticPoint * StatisticPoint, [pq.1; pq.2]) pairs)
    = 2 * length (rows Sample.bdf_table).
Proof.
  destruct (C10_same_identifier (W := Sample.w) (H := Sample.helpers)
              (S := Sample.stat_helpers) Sample.bdf_table (PStr "UTC")
              (PStr DATETIME_DEFAULT_FORMAT) TABLE "sensor.energy" (PStr "kW") (PStr "kWh"))
    as (_ & Hsame).
  apply Hsame. vm_compute. reflexivity.
Defined.

Lemma C3_two_series_witness :
  prepare_data_to_import (W := Sample.w) (H := Sample.helpers) (S := Sample.stat_helpers)
    "bdf.csv" Sample.call_utc
  = ([ReadCsv "bdf.csv" (PStr ";") (PStr ",") (Some BDF_USECOLS)],
     Ok (Sample.bdf_default_stats, TABLE)) ∧
  dom Sample.bdf_default_stats = {["sensor.energy_consumption"; "sensor.energy_supply"]} ∧
  size Sample.bdf_default_stats = 2.
Proof.
  assert (Forall (λ col, col ∈ columns Sample.bdf_df) BDF_USECOLS) as Hheader.
  { apply (bool_decide_unpack _). vm_compute. exact I. }
  assert ("sensor.energy_consumption" ≠ "sensor.energy_supply") as Hne by discriminate.
  destruct (C3_two_series (W := Sample.w) (H := Sample.helpers) (S := Sample.stat_helpers)
              "bdf.csv" Sample.call_utc (PStr ",") (PStr "UTC") PNone
              (PStr DATETIME_DEFAULT_FORMAT) TABLE Sample.bdf_df
              "sensor.energy_consumption" "sensor.energy_supply"
              eq_refl eq_refl Hheader eq_refl eq_refl Hne) as (_ & _ & Htwo).
  apply Htwo. vm_compute. reflexivity.
Defined.

Lemma C1_malformed_timestamp_witness :
  (∃ e,
     prepare_data_to_import (W := Sample.w) (H := Sample.helpers)
       (S := Sample.stat_helpers) "bad.csv" Sample.call_utc
     = ([ReadCsv "bad.csv" (PStr ";") (PStr ",") (Some BDF_USECOLS);
         ReadCsv "bad.csv" (PStr ";") (PStr ",") None], Err e)) ∧
  prepare_data_to_import (W := Sample.w) (H := Sample.helpers)
    (S := Sample.stat_helpers) "mixed.csv" Sample.call_utc
  = ([ReadCsv "mixed.csv" (PStr ";") (PStr ",") (Some BDF_USECOLS);
      ReadCsv "mixed.csv" (PStr ";") (PStr ",") None],
     (fallback_mode (W := Sample.w) (H := Sample.helpers) (S := Sample.stat_helpers)
        "mixed.csv" (PStr ",") (PStr "UTC") (PStr ";")
        (PStr DATETIME_DEFAULT_FORMAT) TABLE).2).
Proof.
  split.
  - destruct (C1_malformed_timestamp (W := Sample.w) (H := Sample.helpers) Sample.strptime
                "bad.csv" Sample.call_utc (PStr ",") (PStr "UTC") PNone
                DATETIME_DEFAULT_FORMAT TABLE eq_refl) as (_ & _ & Hgeneric).
    apply (Hgeneric Sample.bad_generic_df
             [("statistic_id", PStr "sensor.a"); ("start", PStr "2023-01-01 01:00");
              ("sum", PInt 3)] "2023-01-01 01:00").
    + reflexivity.
    + apply list_elem_of_further, list_elem_of_here.
    + reflexivity.
    + reflexivity.
    + eexists. vm_compute. reflexivity.
  - destruct (C1_malformed_timestamp (W := Sample.w) (H := Sample.helpers) Sample.strptime
                "mixed.csv" Sample.call_utc (PStr ",") (PStr "UTC") PNone
                DATETIME_DEFAULT_FORMAT TABLE eq_refl) as (_ & Hbdf & _).
    apply (Hbdf Sample.mixed_df
             [("start", PStr "yesterday"); ("consumption", PInt 7); ("supply", PInt 2)]
             "yesterday").
    + reflexivity.
    + vm_compute. apply list_elem_of_here.
    + reflexivity.
    + reflexivity.
Defined.

(** C1, as stated, fails on [mixed.csv]: the supplier timestamp of its row
    does not parse, yet the generic parse runs after the specialised one
    and an Output is returned. *)
Lemma C1_counterexample :
  Sample.strptime "yesterday" DATETIME_DEFAULT_FORMAT = None ∧
  (∃ row, row ∈ rows Sample.mixed_df ∧
          row_lookup row CSV_COL_DATETIME = Some (PStr "yesterday")) ∧
  data_get Sample.call_utc ATTR_DATETIME_FORMAT (PStr DATETIME_DEFAULT_FORMAT)
  = PStr DATETIME_DEFAULT_FORMAT ∧
  prepare_data_to_import (W := Sample.w) (H := Sample.helpers) (S := Sample.stat_helpers)
    "mixed.csv" Sample.call_utc
  = ([ReadCsv "mixed.csv" (PStr ";") (PStr ",") (Some BDF_USECOLS);
      ReadCsv "mixed.csv" (PStr ";") (PStr ",") None],
     Ok (Sample.mixed_stats, TABLE)).
Proof.
  split; [reflexivity|]. split.
  - eexists. split; [apply list_elem_of_here|reflexivity].
  - split; [reflexivity|]. vm_compute. reflexivity.
Qed.

(** C3, as stated, fails on [mixed.csv] with the default identifiers: the
    header has the three supplier columns, the specialised attempt raises
    on the malformed timestamp, and the Output of the generic pipeline has
    one key, which is neither of the two configured identifiers. *)
Lemma C3_counterexample :
  Forall (λ col, col ∈ columns Sample.mixed_df) BDF_USECOLS ∧
  prepare_data_to_import (W := Sample.w) (H := Sample.helpers) (S := Sample.stat_helpers)
    "mixed.csv" Sample.call_utc
  = ([ReadCsv "mixed.csv" (PStr ";") (PStr ",") (Some BDF_USECOLS);
      ReadCsv "mixed.csv" (PStr ";") (PStr ",") None],
     Ok (Sample.mixed_stats, TABLE)) ∧
  dom Sample.mixed_stats = {["sensor.a"]} ∧
  size Sample.mixed_stats ≠ 2 ∧
  Sample.mixed_stats !! "sensor.energy_consumption" = None ∧
  Sample.mixed_stats !! "sensor.energy_supply" = None.
Proof.
  split; [apply (bool_decide_unpack _); vm_compute; exact I|].
  split; [vm_compute; reflexivity|].
  split; [apply dom_singleton_L|].
  split; [vm_compute; discriminate|]. split; vm_compute; reflexivity.
Qed.

(** C6 at its failing input: on [bdf.csv], which has two rows, with one
    identifier configured for both series, the Output has a single series
    and that series holds four points, two for every row, where the claim
    (and the docstring of [handle_dataframe_bdf], which promises two
    series) has one point per row in each of two series. *)
Theorem C6_equal_identifiers :
  prepare_data_to_import (W := Sample.w) (H := Sample.helpers) (S := Sample.stat_helpers)
    "bdf.csv" Sample.call_same_id
  = ([ReadCsv "bdf.csv" (PStr ";") (PStr ",") (Some BDF_USECOLS)],
     Ok (Sample.same_id_stats, TABLE)) ∧
  length (rows Sample.bdf_df) = 2 ∧
  size Sample.same_id_stats = 1 ∧
  Sample.same_id_stats !! "sensor.energy"
  = Some (Sample.sum_metadata "sensor.energy" "kWh",
          [SumPoint (Sample.at_ 1 1 2023 0 0) (PInt 7);
           SumPoint (Sample.at_ 1 1 2023 0 0) (PInt 2);
           SumPoint (Sample.at_ 1 1 2023 1 0) (PInt 8);
           SumPoint (Sample.at_ 1 1 2023 1 0) (PInt 4)]).
Proof.
  split; [vm_compute; reflexivity|]. split; [reflexivity|].
  split; vm_compute; reflexivity.
Qed.

(** * Further properties of the accumulators and of the dispatch *)

(** ** Loops that raise *)

Lemma foldlM_snoc_Err {A B} (f : A → B → result A) (a a1 : A) (l1 l2 : list B) b e :
  foldlM f a l1 = Ok a1 → f a1 b = Err e →
  foldlM f a (l1 ++ b :: l2)%list = Err e.
Proof.
  revert a. induction l1 as [|x l1 IH]; intros a Hl Hb; simpl in *.
  - injection Hl as ->. by rewrite Hb.
  - destruct (f a x) as [a'|e']; simpl in *; [by apply IH | done].
Qed.

(** ** The generic loop, row by row *)

Section GenericRows.
Context `{W : World} `{H : Helpers} `{S : StatHelpers}.
Variables (hm hs : bool) (timezone : ZoneInfo) (fmt : PyVal) (u : UnitFrom).

(** One row of a known series: only the point is built. *)
Lemma handle_dataframe_row_known (stats : Stats) row k md pts :
  row_id row = Some k → stats !! k = Some (md, pts) →
  handle_dataframe_row hm hs timezone fmt u stats row
  = (p ← row_stat hm timezone fmt row;
     Ok (<[k := (md, (pts ++ [p])%list)]> stats)).
Proof.
  intros Hid Hk. apply row_id_getitem in Hid.
  unfold handle_dataframe_row.
  destruct (row_getitem row "statistic_id") as [cell|]; simpl in *; [|done].
  rewrite Hid. simpl. rewrite Hk. simpl. unfold row_stat.
  destruct (if hm then _ else _) as [p|e]; simpl; [|done].
  by rewrite (append_stat_lookup _ _ _ _ _ Hk).
Qed.

(** One row of a new series: the helpers are asked for the source and the
    unit, with the unit cell of this row or the empty string as the hint,
    and the series starts with the point of this row. *)
Lemma handle_dataframe_row_new (stats : Stats) row k :
  row_id row = Some k → stats !! k = None →
  handle_dataframe_row hm hs timezone fmt u stats row
  = (src ← get_source k;
     un ← add_unit_to_dataframe src u (row_get row "unit" (PStr "")) k;
     p ← row_stat hm timezone fmt row;
     Ok (<[k := (generic_metadata hm hs src k un, [p])]> stats)).
Proof.
  intros Hid Hk. apply row_id_getitem in Hid.
  unfold handle_dataframe_row.
  destruct (row_getitem row "statistic_id") as [cell|]; simpl in *; [|done].
  rewrite Hid. simpl. rewrite Hk. simpl.
  destruct (get_source k) as [src|e]; simpl; [|done].
  destruct (add_unit_to_dataframe _ _ _ _) as [un|e]; simpl; [|done].
  unfold row_stat. destruct (if hm then _ else _) as [p|e]; simpl; [|done].
  unfold append_stat. rewrite lookup_insert_eq. by rewrite insert_insert_eq.
Qed.

(** A row that names no series raises before any helper is asked. *)
Lemma handle_dataframe_row_no_id (stats : Stats) row :
  row_id row = None →
  handle_dataframe_row hm hs timezone fmt u stats row
  = match row_lookup row "statistic_id" with
    | Some _ => Err TypeError
    | None => Err (KeyError "statistic_id")
    end.
Proof.
  unfold row_id, handle_dataframe_row, row_getitem.
  by destruct (row_lookup row "statistic_id") as [[]|].
Qed.

(** The metadata of a series that the loop creates comes from the first of
    its rows. *)
Lemma generic_loop_metadata rows :
  ∀ (stats0 stats : Stats) k md pts,
  foldlM (handle_dataframe_row hm hs timezone fmt u) stats0 rows = Ok stats →
  stats0 !! k = None → stats !! k = Some (md, pts) →
  ∃ first rest src un,
    rows_of k rows = first :: rest ∧
    get_source k = Ok src ∧
    add_unit_to_dataframe src u (row_get first "unit" (PStr "")) k = Ok un ∧
    md = generic_metadata hm hs src k un.
Proof.
  induction rows as [|row rows IH]; intros stats0 stats k md pts Hloop H0 Hk.
  - injection Hloop as <-. by rewrite H0 in Hk.
  - simpl in Hloop. inv_bind Hloop as stats1 Hrow.
    pose proof Hrow as Hrow'.
    apply handle_dataframe_row_Ok in Hrow' as (k0 & p & Hid & _ & _).
    destruct (decide (k = k0)) as [->|Hne].
    + rewrite (handle_dataframe_row_new _ _ _ Hid H0) in Hrow.
      inv_bind Hrow as src Hsrc. inv_bind Hrow as un Hun. inv_bind Hrow as p' Hp.
      injection Hrow as <-.
      pose proof (generic_loop_series _ _ _ _ _ _ _ _ Hloop k0) as Hs.
      rewrite Hk, lookup_insert_eq in Hs.
      destruct Hs as (new & _ & [(pts1 & [= <- _] & _)|(? & _)]); [|done].
      exists row, (rows_of k0 rows), src, un.
      by rewrite (rows_of_cons_eq _ _ _ Hid).
    + assert (row_id row ≠ Some k) as Hid' by (rewrite Hid; congruence).
      rewrite (rows_of_cons_ne _ _ _ Hid').
      apply (IH stats1 stats k md pts Hloop); [|done].
      destruct (stats0 !! k0) as [[md0 pts0]|] eqn:Hk0.
      * rewrite (handle_dataframe_row_known _ _ _ _ _ Hid Hk0) in Hrow.
        inv_bind Hrow as p' Hp. injection Hrow as <-. by rewrite lookup_insert_ne.
      * rewrite (handle_dataframe_row_new _ _ _ Hid Hk0) in Hrow.
        inv_bind Hrow as src Hsrc. inv_bind Hrow as un Hun. inv_bind Hrow as p' Hp.
        injection Hrow as <-. by rewrite lookup_insert_ne.
Qed.

(** The loop returns when every row names a series for which the helpers
    answer and a point can be built. *)
Lemma generic_loop_total rows :
  Forall (λ row, ∃ k src un p,
            row_id row = Some k ∧ get_source k = Ok src ∧
            add_unit_to_dataframe src u (row_get row "unit" (PStr "")) k = Ok un ∧
            row_stat hm timezone fmt row = Ok p) rows →
  ∀ stats0 : Stats,
    is_Ok (foldlM (handle_dataframe_row hm hs timezone fmt u) stats0 rows).
Proof.
  induction 1 as [|row rows (k & src & un & p & Hid & Hsrc & Hun & Hp) _ IH];
    intros stats0; [by eexists|].
  simpl. destruct (stats0 !! k) as [[md pts]|] eqn:Hk.
  - rewrite (handle_dataframe_row_known _ _ _ _ _ Hid Hk), Hp. simpl. apply IH.
  - rewrite (handle_dataframe_row_new _ _ _ Hid Hk), Hsrc. simpl.
    rewrite Hun. simpl. rewrite Hp. simpl. apply IH.
Qed.

End GenericRows.

(** ** The generic accumulator as a whole *)

Section GenericOutput.
Context `{W : World} `{H : Helpers} `{S : StatHelpers}.

Lemma rows_of_nonempty k (rows : list Row) :
  rows_of k rows ≠ [] ↔ ∃ row, row ∈ rows ∧ row_id row = Some k.
Proof.
  unfold rows_of. split.
  - destruct (filter _ rows) as [|row l] eqn:Hf; [done|]. intros _.
    assert (row ∈ filter (λ row, row_id row = Some k) rows) as Hin
      by (rewrite Hf; apply list_elem_of_here).
    apply list_elem_of_filter in Hin as [Hid Hin]. by exists row.
  - intros (row & Hin & Hid) Hnil.
    assert (row ∈ filter (λ row, row_id row = Some k) rows) as Hin'
      by by apply list_elem_of_filter.
    rewrite Hnil in Hin'. by apply not_elem_of_nil in Hin'.
Qed.

Lemma generic_loop_ids hm hs timezone fmt u rows (stats0 stats : Stats) :
  foldlM (handle_dataframe_row hm hs timezone fmt u) stats0 rows = Ok stats →
  Forall (λ row, is_Some (row_id row)) rows.
Proof.
  apply foldlM_Ok_each. intros a row a' Hrow.
  apply handle_dataframe_row_Ok in Hrow as (k & p & Hid & _). by exists k.
Qed.

Lemma generic_keys df tz fmt u (stats : Stats) :
  handle_dataframe df tz fmt u = Ok stats →
  ∀ k, k ∈ dom stats ↔ ∃ row, row ∈ rows df ∧ row_id row = Some k.
Proof.
  intros Hdf k. rewrite <- rows_of_nonempty, elem_of_dom. split.
  - intros [[md pts] Hk].
    by destruct (handle_dataframe_series _ _ _ _ _ _ _ _ Hdf Hk) as (_ & _ & _ & ? & _).
  - intros Hne. destruct (stats !! k) as [mp|] eqn:Hk; [by eexists|].
    by rewrite (handle_dataframe_no_series _ _ _ _ _ _ Hdf Hk) in Hne.
Qed.

(** The keys of a generic Output are the identifiers that occur in the
    rows: one series for every identifier met, none for any other, and
    every row belongs to one of them. *)
Theorem handle_dataframe_keys df tz fmt u (stats : Stats) :
  handle_dataframe df tz fmt u = Ok stats →
  (∀ k, k ∈ dom stats ↔ ∃ row, row ∈ rows df ∧ row_id row = Some k) ∧
  (∀ row, row ∈ rows df → ∃ k, row_id row = Some k ∧ k ∈ dom stats).
Proof.
  intros Hdf. pose proof (generic_keys _ _ _ _ _ Hdf) as Hkeys.
  split; [done|]. intros row Hin.
  apply handle_dataframe_Ok_inv in Hdf as (_ & _ & timezone & _ & Hloop).
  apply generic_loop_ids in Hloop. rewrite Forall_forall in Hloop.
  destruct (Hloop row Hin) as [k Hid]. exists k. split; [done|].
  apply Hkeys. by exists row.
Qed.

(** The metadata of a series of a generic Output is made from the first
    row of the series: the source is asked for the identifier, the unit is
    resolved with the unit cell of that first row (the empty string if the
    row has none) as the hint, the name is unset, and the rows that follow
    do not change it. *)
Theorem handle_dataframe_metadata df tz fmt u (stats : Stats) k md pts :
  handle_dataframe df tz fmt u = Ok stats →
  stats !! k = Some (md, pts) →
  ∃ first rest src un,
    rows_of k (rows df) = first :: rest ∧
    get_source k = Ok src ∧
    add_unit_to_dataframe src u (row_get first "unit" (PStr "")) k = Ok un ∧
    md = generic_metadata (bool_decide ("mean" ∈ columns df))
           (bool_decide ("sum" ∈ columns df)) src k un.
Proof.
  intros Hdf Hk.
  apply handle_dataframe_Ok_inv in Hdf as (_ & _ & timezone & _ & Hloop).
  by apply (generic_loop_metadata _ _ _ _ _ _ _ _ _ _ _ Hloop (lookup_empty k) Hk).
Qed.

(** A generic Output is empty exactly when the table has no rows. *)
Theorem handle_dataframe_empty df tz fmt u (stats : Stats) :
  handle_dataframe df tz fmt u = Ok stats →
  (stats = ∅ ↔ rows df = []).
Proof.
  intros Hdf. pose proof (generic_keys _ _ _ _ _ Hdf) as Hkeys. split.
  - intros ->. destruct (rows df) as [|row l] eqn:Hrows; [done|].
    apply handle_dataframe_Ok_inv in Hdf as (_ & _ & timezone & _ & Hloop).
    apply generic_loop_ids in Hloop. rewrite Hrows in Hloop.
    apply Forall_cons in Hloop as [[k Hid] _].
    assert (k ∈ dom (∅ : Stats)) as Hk
      by (apply Hkeys; exists row; split; [apply list_elem_of_here|done]).
    by rewrite dom_empty_L in Hk.
  - intros Hnil. apply dom_empty_iff_L, set_eq. intros k.
    rewrite Hkeys, Hnil. split; [|by rewrite elem_of_empty].
    intros (row & Hin & _). by apply not_elem_of_nil in Hin.
Qed.

(** The loop of [handle_dataframe] returns exactly when every row names a
    series and yields a point, and the helpers answer for the first row of
    every series that is not there yet. *)
Lemma generic_loop_returns hm hs timezone fmt u rows :
  ∀ stats0 : Stats,
  is_Ok (foldlM (handle_dataframe_row hm hs timezone fmt u) stats0 rows) ↔
  Forall (λ row, is_Some (row_id row) ∧ is_Ok (row_stat hm timezone fmt row)) rows ∧
  (∀ k first rest,
     stats0 !! k = None → rows_of k rows = first :: rest →
     ∃ src, get_source k = Ok src ∧
            is_Ok (add_unit_to_dataframe src u (row_get first "unit" (PStr "")) k)).
Proof.
  intros stats0. split.
  - intros [stats Hloop]. split.
    + apply Forall_forall. intros row Hin.
      pose proof (generic_loop_ids _ _ _ _ _ _ _ _ Hloop) as Hids.
      pose proof (generic_loop_each_row _ _ _ _ _ _ _ _ Hloop) as Hpts.
      rewrite Forall_forall in Hids, Hpts. split; eauto.
    + intros k first rest H0 Hrows.
      pose proof (generic_loop_series _ _ _ _ _ _ _ _ Hloop k) as Hs.
      destruct (stats !! k) as [[md pts]|] eqn:Hk.
      * destruct (generic_loop_metadata _ _ _ _ _ _ _ _ _ _ _ Hloop H0 Hk)
          as (first' & rest' & src & un & Hrows' & Hsrc & Hun & _).
        rewrite Hrows in Hrows'. injection Hrows' as <- <-.
        exists src. split; [done|]. by exists un.
      * destruct Hs as [_ Hnil]. by rewrite Hrows in Hnil.
  - revert stats0. induction rows as [|row rows IH]; intros stats0 [Hall Hfirst];
      [by eexists|].
    apply Forall_cons in Hall as [[[k Hid] [p Hp]] Hall]. simpl.
    assert (∃ stats1 : Stats,
              handle_dataframe_row hm hs timezone fmt u stats0 row = Ok stats1 ∧
              ∀ k', stats1 !! k' = None → k' ≠ k ∧ stats0 !! k' = None)
      as (stats1 & -> & Hnone).
    { destruct (stats0 !! k) as [[md pts]|] eqn:Hk.
      - rewrite (handle_dataframe_row_known _ _ _ _ _ _ _ _ _ _ Hid Hk), Hp.
        eexists. split; [done|]. intros k' Hk'.
        destruct (decide (k' = k)) as [->|Hne]; [by rewrite lookup_insert_eq in Hk'|].
        by rewrite lookup_insert_ne in Hk'.
      - destruct (Hfirst k row (rows_of k rows) Hk (rows_of_cons_eq _ _ _ Hid))
          as (src & Hsrc & [un Hun]).
        rewrite (handle_dataframe_row_new _ _ _ _ _ _ _ _ Hid Hk), Hsrc. simpl.
        rewrite Hun. simpl. rewrite Hp. simpl.
        eexists. split; [done|]. intros k' Hk'.
        destruct (decide (k' = k)) as [->|Hne]; [by rewrite lookup_insert_eq in Hk'|].
        by rewrite lookup_insert_ne in Hk'. }
    simpl. apply IH. split; [done|].
    intros k' first rest Hk' Hrows. destruct (Hnone k' Hk') as [Hne H0].
    apply (Hfirst k' first rest H0).
    rewrite rows_of_cons_ne; [done|]. rewrite Hid. congruence.
Qed.

(** [handle_dataframe] returns exactly when the column helper accepts the
    table, exactly one of [mean] and [sum] is a column, the zone resolves,
    every row names a series and yields a point, and the helpers answer
    for the first row of every series. *)
Theorem handle_dataframe_returns df tz fmt u :
  is_Ok (handle_dataframe df tz fmt u) ↔
  are_columns_valid df u = Ok true ∧
  bool_decide ("mean" ∈ columns df) ≠ bool_decide ("sum" ∈ columns df) ∧
  ∃ timezone,
    ZoneInfo_new tz = Ok timezone ∧
    Forall (λ row, is_Some (row_id row) ∧
                   is_Ok (row_stat (bool_decide ("mean" ∈ columns df)) timezone fmt row))
      (rows df) ∧
    (∀ k first rest,
       rows_of k (rows df) = first :: rest →
       ∃ src, get_source k = Ok src ∧
              is_Ok (add_unit_to_dataframe src u (row_get first "unit" (PStr "")) k)).
Proof.
  split.
  - intros [stats Hdf].
    apply handle_dataframe_Ok_inv in Hdf as (Hv & Hx & timezone & Hz & Hloop).
    repeat (split; [done|]). exists timezone. split; [done|].
    assert (is_Ok (foldlM (handle_dataframe_row (bool_decide ("mean" ∈ columns df))
                             (bool_decide ("sum" ∈ columns df)) timezone fmt u)
                     ∅ (rows df))) as Hok by by exists stats.
    apply generic_loop_returns in Hok as [Hall Hfirst]. split; [done|].
    intros k first rest. by apply Hfirst.
  - intros (Hv & Hx & timezone & Hz & Hall & Hfirst).
    rewrite (handle_dataframe_unfold _ _ _ _ Hv Hx), Hz. simpl.
    apply generic_loop_returns. split; [done|]. intros k first rest _. apply Hfirst.
Qed.

(** The exception of the first row that fails is the one [handle_dataframe]
    raises; the rows after it play no part. *)
Theorem handle_dataframe_first_failure df tz fmt u timezone before row after
    (stats1 : Stats) e :
  are_columns_valid df u = Ok true →
  bool_decide ("mean" ∈ columns df) ≠ bool_decide ("sum" ∈ columns df) →
  ZoneInfo_new tz = Ok timezone →
  rows df = (before ++ row :: after)%list →
  foldlM (handle_dataframe_row (bool_decide ("mean" ∈ columns df))
            (bool_decide ("sum" ∈ columns df)) timezone fmt u) ∅ before = Ok stats1 →
  handle_dataframe_row (bool_decide ("mean" ∈ columns df))
    (bool_decide ("sum" ∈ columns df)) timezone fmt u stats1 row = Err e →
  handle_dataframe df tz fmt u = Err e.
Proof.
  intros Hv Hx Hz Hrows Hbefore Hrow.
  rewrite (handle_dataframe_unfold _ _ _ _ Hv Hx), Hz, Hrows. simpl.
  by apply (foldlM_snoc_Err _ _ stats1).
Qed.

End GenericOutput.

(** ** Counting points *)

Section Counting.
Context `{W : World} `{H : Helpers} `{S : StatHelpers}.

Lemma total_points_insert_None (m : Stats) k mp :
  m !! k = None → total_points (<[k := mp]> m) = length mp.2 + total_points m.
Proof.
  intros Hk. unfold total_points.
  apply (map_fold_insert_L (λ _ (mp : Metadata * list StatisticPoint) n, length mp.2 + n));
    [intros; lia | done].
Qed.

Lemma total_points_insert_Some (m : Stats) k mp mp' :
  m !! k = Some mp →
  total_points (<[k := mp']> m) + length mp.2 = length mp'.2 + total_points m.
Proof.
  intros Hk. rewrite <- insert_delete_eq.
  rewrite total_points_insert_None by apply lookup_delete_eq.
  unfold total_points at 2.
  rewrite (map_fold_delete_L
             (λ _ (mp : Metadata * list StatisticPoint) n, length mp.2 + n) 0 k mp m);
    [|intros; lia | done].
  fold (total_points (delete k m)). lia.
Qed.

Lemma total_points_empty_series (m : Stats) k md :
  (total_points (<[k := (md, [])]> m) ≤ total_points m)%nat.
Proof.
  destruct (m !! k) as [mp|] eqn:Hk.
  - pose proof (total_points_insert_Some m k mp (md, []) Hk). simpl in *. lia.
  - rewrite total_points_insert_None by done. simpl. lia.
Qed.

Lemma append_stat_total k p (stats stats' : Stats) :
  append_stat k p stats = Ok stats' → total_points stats' = 1 + total_points stats.
Proof.
  intros Ha. apply append_stat_Ok in Ha as (md & pts & Hk & ->).
  pose proof (total_points_insert_Some stats k (md, pts) (md, (pts ++ [p])%list) Hk) as Ht.
  simpl in Ht. rewrite length_app in Ht. simpl in Ht. lia.
Qed.

Lemma generic_loop_total_points hm hs timezone fmt u rows :
  ∀ stats0 stats : Stats,
  foldlM (handle_dataframe_row hm hs timezone fmt u) stats0 rows = Ok stats →
  total_points stats = total_points stats0 + length rows.
Proof.
  induction rows as [|row rows IH]; intros stats0 stats Hloop.
  - injection Hloop as <-. simpl. lia.
  - simpl in Hloop. inv_bind Hloop as stats1 Hrow.
    rewrite (IH _ _ Hloop). simpl.
    apply handle_dataframe_row_Ok in Hrow
      as (k & p & _ & _ & [(md & pts & Hk & ->)|(Hk & md & _ & _ & _ & ->)]).
    + pose proof (total_points_insert_Some stats0 k (md, pts) (md, (pts ++ [p])%list) Hk)
        as Ht.
      simpl in Ht. rewrite length_app in Ht. simpl in Ht. lia.
    + rewrite total_points_insert_None by done. simpl. lia.
Qed.

Lemma bdf_fill_loop_total_points timezone fmt c s rows :
  ∀ stats0 stats : Stats,
  foldlM (bdf_fill_row timezone fmt c s) stats0 rows = Ok stats →
  total_points stats = total_points stats0 + 2 * length rows.
Proof.
  induction rows as [|row rows IH]; intros stats0 stats Hloop.
  - injection Hloop as <-. simpl. lia.
  - simpl in Hloop. inv_bind Hloop as stats1 Hrow.
    rewrite (IH _ _ Hloop). unfold bdf_fill_row in Hrow.
    inv_bind Hrow as start Hstart. inv_bind Hrow as cv Hcv.
    inv_bind Hrow as p Hp. inv_bind Hrow as stats' Hap.
    inv_bind Hrow as start' Hstart'. inv_bind Hrow as sv Hsv. inv_bind Hrow as q Hq.
    apply append_stat_total in Hap, Hrow. simpl. lia.
Qed.

(** Every row gives exactly one point in the generic layout and exactly
    two in the specialised one: the points of an Output, counted over all
    its series, are as many as the rows, respectively twice as many. *)
Theorem total_points_rows :
  (∀ df tz fmt u (stats : Stats),
     handle_dataframe df tz fmt u = Ok stats →
     total_points stats = length (rows df)) ∧
  (∀ df tz fmt u c s uc us (stats : Stats),
     handle_dataframe_bdf df tz fmt u c s uc us = Ok stats →
     total_points stats = 2 * length (rows df)).
Proof.
  split.
  - intros df tz fmt u stats Hdf.
    apply handle_dataframe_Ok_inv in Hdf as (_ & _ & timezone & _ & Hloop).
    rewrite (generic_loop_total_points _ _ _ _ _ _ _ _ Hloop).
    unfold total_points. by rewrite map_fold_empty.
  - intros df tz fmt u c s uc us stats Hb. unfold handle_dataframe_bdf in Hb.
    inv_bind Hb as ? Hreq. inv_bind Hb as timezone Hz. inv_bind Hb as stats0 Hcreate.
    apply bdf_create_loop in Hcreate as (src_c & un_c & src_s & un_s & _ & _ & _ & _ & ->).
    rewrite (bdf_fill_loop_total_points _ _ _ _ _ _ _ Hb).
    assert (total_points (<[s := (bdf_metadata src_s s un_s, [])]>
                            (<[c := (bdf_metadata src_c c un_c, [])]> (∅ : Stats))) = 0)
      as ->; [|lia].
    pose proof (total_points_empty_series
                  (<[c := (bdf_metadata src_c c un_c, [])]> ∅) s (bdf_metadata src_s s un_s))
      as Hsupply.
    pose proof (total_points_empty_series ∅ c (bdf_metadata src_c c un_c)) as Hcons.
    unfold total_points at 2 in Hcons. rewrite map_fold_empty in Hcons. lia.
Qed.

End Counting.

(** ** The specialised accumulator as a whole *)

Section SpecialisedOutput.
Context `{W : World} `{H : Helpers} `{S : StatHelpers}.

Lemma bdf_stats_pairs timezone fmt (rows : list Row) :
  Forall (λ row, is_Ok (cons_stat timezone fmt row) ∧ is_Ok (supp_stat timezone fmt row))
    rows ↔
  ∃ pairs, Forall2 (bdf_stats timezone fmt) rows pairs.
Proof.
  split.
  - induction 1 as [|row rows [[p Hp] [q Hq]] _ [pairs IH]].
    + exists []. constructor.
    + exists ((p, q) :: pairs). by constructor.
  - intros [pairs Hpairs]. induction Hpairs as [|row pq rows pairs [Hp Hq] _ IH];
      constructor; [|done].
    split; by eexists.
Qed.

Lemma handle_dataframe_bdf_required df tz fmt u c s uc us (stats : Stats) :
  handle_dataframe_bdf df tz fmt u c s uc us = Ok stats →
  "start" ∈ columns df ∧ "consumption" ∈ columns df ∧ "supply" ∈ columns df.
Proof.
  unfold handle_dataframe_bdf. intros Hb. inv_bind Hb as ? Hreq.
  apply guard_Ok_inv, negb_false_iff in Hreq. by apply required_columns.
Qed.

(** [handle_dataframe_bdf] returns exactly when the three columns are
    there, the zone resolves, the helpers answer for both series, and both
    points of every row can be built. *)
Theorem handle_dataframe_bdf_returns df tz fmt u c s uc us :
  is_Ok (handle_dataframe_bdf df tz fmt u c s uc us) ↔
  ("start" ∈ columns df ∧ "consumption" ∈ columns df ∧ "supply" ∈ columns df) ∧
  ∃ timezone,
    ZoneInfo_new tz = Ok timezone ∧
    (∃ src, get_source c = Ok src ∧ is_Ok (add_unit_to_dataframe src u uc c)) ∧
    (∃ src, get_source s = Ok src ∧ is_Ok (add_unit_to_dataframe src u us s)) ∧
    Forall (λ row, is_Ok (cons_stat timezone fmt row) ∧
                   is_Ok (supp_stat timezone fmt row)) (rows df).
Proof.
  split.
  - intros [stats Hb]. split; [by eapply handle_dataframe_bdf_required|].
    apply handle_dataframe_bdf_Ok_inv in Hb
      as (timezone & src_c & un_c & src_s & un_s & pairs & Hz & Hsc & Huc & Hss & Hus
          & Hpairs & _).
    exists timezone. split; [done|].
    split; [exists src_c; split; [done|by exists un_c]|].
    split; [exists src_s; split; [done|by exists un_s]|].
    apply bdf_stats_pairs. by exists pairs.
  - intros ((H1 & H2 & H3) & timezone & Hz & (src_c & Hsc & [un_c Huc])
            & (src_s & Hss & [un_s Hus]) & Hall).
    apply bdf_stats_pairs in Hall as [pairs Hpairs].
    by eapply (handle_dataframe_bdf_total df tz fmt u c s uc us timezone
                 src_c un_c src_s un_s pairs).
Qed.

(** A specialised Output is never empty: both configured series are in it
    even for a table without rows, and then they hold no point. *)
Theorem handle_dataframe_bdf_never_empty df tz fmt u c s uc us (stats : Stats) :
  handle_dataframe_bdf df tz fmt u c s uc us = Ok stats →
  is_Some (stats !! c) ∧ is_Some (stats !! s) ∧
  (rows df = [] → ∀ k md pts, stats !! k = Some (md, pts) → pts = []).
Proof.
  intros Hb.
  pose proof (handle_dataframe_bdf_dom _ _ _ _ _ _ _ _ _ Hb) as Hdom.
  split; [|split].
  - apply elem_of_dom. rewrite Hdom. apply elem_of_union_l, elem_of_singleton. done.
  - apply elem_of_dom. rewrite Hdom. apply elem_of_union_r, elem_of_singleton. done.
  - intros Hnil k md pts Hk.
    apply handle_dataframe_bdf_Ok_inv in Hb
      as (timezone & src_c & un_c & src_s & un_s & pairs & _ & _ & _ & _ & _
          & Hpairs & Hall).
    rewrite Hnil in Hpairs. apply Forall2_nil_inv_l in Hpairs as ->.
    rewrite Hall in Hk.
    destruct (decide (k = s)) as [->|Hks].
    + rewrite lookup_insert_eq in Hk. by injection Hk as _ <-.
    + rewrite lookup_insert_ne in Hk by done.
      destruct (decide (k = c)) as [->|Hkc].
      * rewrite lookup_insert_eq in Hk. by injection Hk as _ <-.
      * by rewrite lookup_insert_ne, lookup_empty in Hk.
Qed.

(** With two different identifiers each series carries its own metadata:
    the unit of the consumption series is resolved from the consumption
    hint and that of the supply series from the supply hint. *)
Theorem handle_dataframe_bdf_units df tz fmt u c s uc us (stats : Stats) :
  handle_dataframe_bdf df tz fmt u c s uc us = Ok stats →
  c ≠ s →
  ∃ src_c un_c src_s un_s pts_c pts_s,
    get_source c = Ok src_c ∧ add_unit_to_dataframe src_c u uc c = Ok un_c ∧
    get_source s = Ok src_s ∧ add_unit_to_dataframe src_s u us s = Ok un_s ∧
    stats !! c = Some (bdf_metadata src_c c un_c, pts_c) ∧
    stats !! s = Some (bdf_metadata src_s s un_s, pts_s).
Proof.
  intros Hb Hne.
  apply handle_dataframe_bdf_series in Hb
    as (timezone & src_c & un_c & src_s & un_s & pairs & _ & Hsc & Huc & Hss & Hus & _
        & Hs & Hc & _).
  exists src_c, un_c, src_s, un_s. eexists _, _.
  repeat (split; [done|]). split; [by apply Hc|done].
Qed.

End SpecialisedOutput.

(** ** The whole transformation *)

Section WholeTransformation.
Context `{W : World} `{H : Helpers} `{S : StatHelpers}.

(** [handle_arguments] returns exactly when the path exists and the call
    carries a timezone identifier that is the text of a known zone: a
    missing identifier is rejected like an unknown one. *)
Theorem handle_arguments_returns file_path call :
  is_Ok (handle_arguments file_path call) ↔
  path_exists file_path = true ∧
  ∃ z, data call !! ATTR_TIMEZONE_IDENTIFIER = Some (PStr z) ∧ zone_exists z = true.
Proof.
  split.
  - intros [[[[[dec tz] delim] fmt] u] Ha].
    apply handle_arguments_Ok_inv in Ha as (Hp & [zi Hz] & _ & -> & _).
    split; [done|]. unfold data_get, ZoneInfo_new in Hz.
    destruct (data call !! ATTR_TIMEZONE_IDENTIFIER) as [[| | z | | |]|]; try done.
    exists z. split; [done|]. by destruct (zone_exists z).
  - intros (Hp & z & Hid & Hz).
    eexists. apply (handle_arguments_Ok _ _ {| zone_key := z |} Hp).
    unfold data_get. rewrite Hid. simpl. by rewrite Hz.
Qed.

(** The separators the parses are started with.  The decimal separator of
    [handle_arguments] is one of [","] and ["."], so the default applied to
    it afterwards never changes it; any value of the decimal flag that
    counts as false selects ["."].  A delimiter that counts as true is
    passed on as it is; one that counts as false, such as the empty
    string, is replaced by [";"]. *)
Theorem resolved_separators file_path call dec tz delim fmt u :
  handle_arguments file_path call = Ok (dec, tz, delim, fmt, u) →
  py_or dec (PStr ",") = dec ∧
  (dec = PStr "," ∨ dec = PStr ".") ∧
  (∀ v, data call !! ATTR_DECIMAL = Some v →
        dec = if py_truthy v then PStr "," else PStr ".") ∧
  (∀ v, data call !! ATTR_DELIMITER = Some v →
        py_or delim (PStr ";") = if py_truthy v then v else PStr ";").
Proof.
  intros Ha.
  apply handle_arguments_Ok_inv in Ha as (_ & _ & -> & _ & -> & _).
  unfold data_get. split; [|split; [|split]].
  - by destruct (py_truthy _).
  - destruct (py_truthy _); [by left|by right].
  - by intros v ->.
  - by intros v ->.
Qed.

(** If the restricted parse raises and the parse of the whole file raises
    too, both parses have been started and the exception of the parse of
    the whole file is the one that reaches the caller. *)
Theorem prepare_data_to_import_parser_failure file_path call dec tz delim fmt u e' e :
  handle_arguments file_path call = Ok (dec, tz, delim, fmt, u) →
  (read_csv file_path (py_or delim (PStr ";")) (py_or dec (PStr ","))
     (Some BDF_USECOLS)).2 = Err e' →
  read_table file_path (py_or delim (PStr ";")) (py_or dec (PStr ",")) = Err e →
  prepare_data_to_import file_path call
  = ([ReadCsv file_path (py_or delim (PStr ";")) (py_or dec (PStr ","))
        (Some BDF_USECOLS);
      ReadCsv file_path (py_or delim (PStr ";")) (py_or dec (PStr ",")) None],
     Err e).
Proof.
  intros Ha Hu Hr.
  rewrite (prepare_data_to_import_fallback _ _ _ _ _ _ _ e' Ha).
  - by rewrite fallback_mode_result, Hr.
  - rewrite try_bdf_mode_result. by rewrite Hu.
Qed.

(** A file whose header lacks one of the three supplier columns is handled
    as before the supplier layout existed: the result is that of
    [handle_dataframe] on the whole table, Output or exception. *)
Theorem prepare_data_to_import_original_behaviour file_path call dec tz delim fmt u
    df col :
  handle_arguments file_path call = Ok (dec, tz, delim, fmt, u) →
  read_table file_path (py_or delim (PStr ";")) (py_or dec (PStr ",")) = Ok df →
  col ∈ BDF_USECOLS → col ∉ columns df →
  prepare_data_to_import file_path call
  = ([ReadCsv file_path (py_or delim (PStr ";")) (py_or dec (PStr ","))
        (Some BDF_USECOLS);
      ReadCsv file_path (py_or delim (PStr ";")) (py_or dec (PStr ",")) None],
     stats ← handle_dataframe df tz fmt u; Ok (stats, u)).
Proof.
  intros Ha Hr Hcol Hno.
  assert (is_Err (try_bdf_mode file_path call (py_or dec (PStr ",")) tz
                    (py_or delim (PStr ";")) fmt u).2) as [e He].
  { rewrite try_bdf_mode_result.
    destruct (read_csv_usecols_absent _ _ _ _ _ Hr Hcol Hno) as [e ->]. by exists e. }
  rewrite (prepare_data_to_import_fallback _ _ _ _ _ _ _ e Ha He).
  by rewrite fallback_mode_result, Hr.
Qed.

(** In every Output, whichever pipeline made it, a series is stored under
    the identifier its metadata carries, its name is unset, and its source
    is what [helpers.get_source] answers for the identifier. *)
Theorem prepare_data_to_import_series file_path call t (stats : Stats) u k md pts :
  prepare_data_to_import file_path call = (t, Ok (stats, u)) →
  stats !! k = Some (md, pts) →
  statistic_id md = k ∧ name md = None ∧ get_source k = Ok (source md).
Proof.
  intros Hp Hk.
  apply prepare_data_to_import_Ok_inv in Hp
    as (dec & tz & delim & fmt & _ & [[_ Hb]|(_ & _ & Hf)]).
  - apply try_bdf_mode_Ok in Hb as (_ & raw & c & s & _ & _ & _ & Hb).
    apply handle_dataframe_bdf_series in Hb
      as (timezone & src_c & un_c & src_s & un_s & pairs & _ & Hsc & _ & Hss & _ & _
          & Hs & Hc & Hother).
    destruct (decide (k = s)) as [->|Hks].
    + rewrite Hs in Hk. by injection Hk as <- _.
    + destruct (decide (k = c)) as [->|Hkc].
      * rewrite Hc in Hk by done. by injection Hk as <- _.
      * by rewrite Hother in Hk.
  - apply fallback_mode_Ok in Hf as (_ & df & _ & Hdf).
    apply handle_dataframe_Ok_inv in Hdf as (_ & _ & timezone & _ & Hloop).
    destruct (generic_loop_metadata _ _ _ _ _ _ _ _ _ _ _ Hloop (lookup_empty k) Hk)
      as (first & rest & src & un & _ & Hsrc & _ & ->).
    done.
Qed.

End WholeTransformation.

(** ** The further properties on the sample files *)

Lemma handle_dataframe_keys_witness :
  (∀ k, k ∈ dom Sample.two_sensor_stats ↔
        ∃ row, row ∈ rows Sample.two_sensor_df ∧ row_id row = Some k) ∧
  (∀ row, row ∈ rows Sample.two_sensor_df →
          ∃ k, row_id row = Some k ∧ k ∈ dom Sample.two_sensor_stats).
Proof.
  apply (handle_dataframe_keys (W := Sample.w) (H := Sample.helpers)
           (S := Sample.stat_helpers) Sample.two_sensor_df (PStr "UTC")
           (PStr DATETIME_DEFAULT_FORMAT) TABLE).
  vm_compute. reflexivity.
Defined.

Lemma handle_dataframe_metadata_witness :
  ∃ first rest src un,
    rows_of "sensor.a" (rows Sample.two_sensor_df) = first :: rest ∧
    get_source (Helpers := Sample.helpers) "sensor.a" = Ok src ∧
    add_unit_to_dataframe (Helpers := Sample.helpers) src TABLE
      (row_get first "unit" (PStr "")) "sensor.a" = Ok un ∧
    {| has_mean := true; has_sum := false; source := "sensor";
       statistic_id := "sensor.a"; name := None; unit_of_measurement := PStr "kWh" |}
    = generic_metadata (bool_decide ("mean" ∈ columns Sample.two_sensor_df))
        (bool_decide ("sum" ∈ columns Sample.two_sensor_df)) src "sensor.a" un.
Proof.
  apply (handle_dataframe_metadata (W := Sample.w) (H := Sample.helpers)
           (S := Sample.stat_helpers) Sample.two_sensor_df (PStr "UTC")
           (PStr DATETIME_DEFAULT_FORMAT) TABLE Sample.two_sensor_stats "sensor.a" _
           [MeanPoint (Sample.at_ 1 1 2023 0 0) (PInt 1);
            MeanPoint (Sample.at_ 1 1 2023 2 0) (PInt 3)]).
  - vm_compute. reflexivity.
  - vm_compute. reflexivity.
Defined.

Lemma handle_dataframe_empty_witness :
  (∅ : Stats) = ∅ ↔ rows Sample.header_only_df = [].
Proof.
  apply (handle_dataframe_empty (W := Sample.w) (H := Sample.helpers)
           (S := Sample.stat_helpers) Sample.header_only_df (PStr "UTC")
           (PStr DATETIME_DEFAULT_FORMAT) TABLE).
  vm_compute. reflexivity.
Defined.

Lemma handle_dataframe_returns_witness :
  is_Ok (handle_dataframe (W := Sample.w) (H := Sample.helpers) (S := Sample.stat_helpers)
           Sample.two_sensor_df (PStr "UTC") (PStr DATETIME_DEFAULT_FORMAT) TABLE).
Proof.
  apply (handle_dataframe_returns (W := Sample.w) (H := Sample.helpers)
           (S := Sample.stat_helpers)).
  split; [reflexivity|]. split; [vm_compute; discriminate|].
  exists Sample.utc. split; [reflexivity|]. split.
  - repeat constructor; (by eexists) || (eexists; vm_compute; reflexivity).
  - intros k first rest _. eexists. split; [reflexivity|]. by eexists.
Defined.

Lemma handle_dataframe_first_failure_witness :
  handle_dataframe (W := Sample.w) (H := Sample.helpers) (S := Sample.stat_helpers)
    Sample.failing_df (PStr "UTC") (PStr DATETIME_DEFAULT_FORMAT) TABLE
  = Err (ValueError "time data does not match format").
Proof.
  apply (handle_dataframe_first_failure (W := Sample.w) (H := Sample.helpers)
           (S := Sample.stat_helpers) Sample.failing_df (PStr "UTC")
           (PStr DATETIME_DEFAULT_FORMAT) TABLE Sample.utc
           [[("statistic_id", PStr "sensor.a"); ("start", PStr "01.01.2023 00:00");
             ("sum", PInt 5)]]
           [("statistic_id", PStr "sensor.a"); ("start", PStr "2023-01-01 01:00");
            ("sum", PInt 3)]
           [[("start", PStr "01.01.2023 02:00"); ("sum", PInt 1)]]
           Sample.mixed_stats).
  - reflexivity.
  - vm_compute. discriminate.
  - reflexivity.
  - reflexivity.
  - vm_compute. reflexivity.
  - vm_compute. reflexivity.
Defined.

Lemma total_points_rows_witness :
  total_points Sample.two_sensor_stats = length (rows Sample.two_sensor_df) ∧
  total_points Sample.same_id_stats = 2 * length (rows Sample.bdf_table).
Proof.
  destruct (total_points_rows (W := Sample.w) (H := Sample.helpers)
              (S := Sample.stat_helpers)) as [Hgeneric Hbdf].
  split.
  - apply (Hgeneric Sample.two_sensor_df (PStr "UTC") (PStr DATETIME_DEFAULT_FORMAT) TABLE).
    vm_compute. reflexivity.
  - apply (Hbdf Sample.bdf_table (PStr "UTC") (PStr DATETIME_DEFAULT_FORMAT) TABLE
             "sensor.energy" "sensor.energy" (PStr "kW") (PStr "kWh")).
    vm_compute. reflexivity.
Defined.

Lemma handle_dataframe_bdf_returns_witness :
  ("start" ∈ columns Sample.bdf_table ∧ "consumption" ∈ columns Sample.bdf_table
   ∧ "supply" ∈ columns Sample.bdf_table) ∧
  ∃ timezone,
    ZoneInfo_new (W := Sample.w) (PStr "UTC") = Ok timezone ∧
    (∃ src, get_source (Helpers := Sample.helpers) "sensor.c" = Ok src ∧
            is_Ok (add_unit_to_dataframe (Helpers := Sample.helpers) src TABLE
                     (PStr "kW") "sensor.c")) ∧
    (∃ src, get_source (Helpers := Sample.helpers) "sensor.s" = Ok src ∧
            is_Ok (add_unit_to_dataframe (Helpers := Sample.helpers) src TABLE
                     (PStr "kW") "sensor.s")) ∧
    Forall (λ row,
              is_Ok (cons_stat (S := Sample.stat_helpers) timezone
                       (PStr DATETIME_DEFAULT_FORMAT) row) ∧
              is_Ok (supp_stat (S := Sample.stat_helpers) timezone
                       (PStr DATETIME_DEFAULT_FORMAT) row))
      (rows Sample.bdf_table).
Proof.
  apply (handle_dataframe_bdf_returns (W := Sample.w) (H := Sample.helpers)
           (S := Sample.stat_helpers) Sample.bdf_table (PStr "UTC")
           (PStr DATETIME_DEFAULT_FORMAT) TABLE "sensor.c" "sensor.s"
           (PStr "kW") (PStr "kW")).
  eexists. vm_compute. reflexivity.
Defined.

Lemma handle_dataframe_bdf_never_empty_witness :
  is_Some (Sample.bdf_default_stats !! "sensor.energy_consumption") ∧
  is_Some (Sample.bdf_default_stats !! "sensor.energy_supply") ∧
  (rows Sample.bdf_table = [] →
   ∀ k md pts, Sample.bdf_default_stats !! k = Some (md, pts) → pts = []).
Proof.
  apply (handle_dataframe_bdf_never_empty (W := Sample.w) (H := Sample.helpers)
           (S := Sample.stat_helpers) Sample.bdf_table (PStr "UTC")
           (PStr DATETIME_DEFAULT_FORMAT) TABLE
           "sensor.energy_consumption" "sensor.energy_supply" (PStr "") (PStr "")).
  vm_compute. reflexivity.
Defined.

Lemma handle_dataframe_bdf_units_witness :
  ∃ src_c un_c src_s un_s pts_c pts_s,
    get_source (Helpers := Sample.helpers) "sensor.energy_consumption" = Ok src_c ∧
    add_unit_to_dataframe (Helpers := Sample.helpers) src_c TABLE (PStr "")
      "sensor.energy_consumption" = Ok un_c ∧
    get_source (Helpers := Sample.helpers) "sensor.energy_supply" = Ok src_s ∧
    add_unit_to_dataframe (Helpers := Sample.helpers) src_s TABLE (PStr "")
      "sensor.energy_supply" = Ok un_s ∧
    Sample.bdf_default_stats !! "sensor.energy_consumption"
    = Some (bdf_metadata src_c "sensor.energy_consumption" un_c, pts_c) ∧
    Sample.bdf_default_stats !! "sensor.energy_supply"
    = Some (bdf_metadata src_s "sensor.energy_supply" un_s, pts_s).
Proof.
  apply (handle_dataframe_bdf_units (W := Sample.w) (H := Sample.helpers)
           (S := Sample.stat_helpers) Sample.bdf_table (PStr "UTC")
           (PStr DATETIME_DEFAULT_FORMAT) TABLE).
  - vm_compute. reflexivity.
  - discriminate.
Defined.

Lemma resolved_separators_witness :
  py_or (PStr ".") (PStr ",") = PStr "." ∧
  (PStr "." = PStr "," ∨ PStr "." = PStr ".") ∧
  (∀ v, data (Sample.call_of [(ATTR_TIMEZONE_IDENTIFIER, PStr "UTC");
                              (ATTR_DECIMAL, PNone); (ATTR_DELIMITER, PStr "")])
        !! ATTR_DECIMAL = Some v →
        PStr "." = if py_truthy v then PStr "," else PStr ".") ∧
  (∀ v, data (Sample.call_of [(ATTR_TIMEZONE_IDENTIFIER, PStr "UTC");
                              (ATTR_DECIMAL, PNone); (ATTR_DELIMITER, PStr "")])
        !! ATTR_DELIMITER = Some v →
        py_or (PStr "") (PStr ";") = if py_truthy v then v else PStr ";").
Proof.
  apply (resolved_separators (W := Sample.w) "generic.csv"
           (Sample.call_of [(ATTR_TIMEZONE_IDENTIFIER, PStr "UTC");
                            (ATTR_DECIMAL, PNone); (ATTR_DELIMITER, PStr "")])
           (PStr ".") (PStr "UTC") (PStr "") (PStr DATETIME_DEFAULT_FORMAT) TABLE).
  reflexivity.
Defined.

Lemma prepare_data_to_import_parser_failure_witness :
  prepare_data_to_import (W := Sample.unreadable) (H := Sample.helpers)
    (S := Sample.stat_helpers) "any.csv" Sample.call_utc
  = ([ReadCsv "any.csv" (PStr ";") (PStr ",") (Some BDF_USECOLS);
      ReadCsv "any.csv" (PStr ";") (PStr ",") None],
     Err (ParserError "Expected 3 fields in line 2, saw 4")).
Proof.
  apply (prepare_data_to_import_parser_failure (W := Sample.unreadable)
           (H := Sample.helpers) (S := Sample.stat_helpers) "any.csv" Sample.call_utc
           (PStr ",") (PStr "UTC") PNone (PStr DATETIME_DEFAULT_FORMAT) TABLE
           (ValueError "Usecols do not match columns")).
  - reflexivity.
  - reflexivity.
  - reflexivity.
Defined.

Lemma prepare_data_to_import_original_behaviour_witness :
  prepare_data_to_import (W := Sample.w) (H := Sample.helpers) (S := Sample.stat_helpers)
    "generic.csv" Sample.call_utc
  = ([ReadCsv "generic.csv" (PStr ";") (PStr ",") (Some BDF_USECOLS);
      ReadCsv "generic.csv" (PStr ";") (PStr ",") None],
     stats ← handle_dataframe (W := Sample.w) (H := Sample.helpers)
               (S := Sample.stat_helpers) Sample.generic_df (PStr "UTC")
               (PStr DATETIME_DEFAULT_FORMAT) TABLE;
     Ok (stats, TABLE)).
Proof.
  apply (prepare_data_to_import_original_behaviour (W := Sample.w) (H := Sample.helpers)
           (S := Sample.stat_helpers) "generic.csv" Sample.call_utc
           (PStr ",") (PStr "UTC") PNone (PStr DATETIME_DEFAULT_FORMAT) TABLE
           Sample.generic_df CSV_COL_SUPPLY).
  - reflexivity.
  - reflexivity.
  - do 2 apply list_elem_of_further. apply list_elem_of_here.
  - apply (bool_decide_unpack _). vm_compute. exact I.
Defined.

Lemma prepare_data_to_import_series_witness :
  statistic_id (Sample.sum_metadata "sensor.energy" "kWh") = "sensor.energy" ∧
  name (Sample.sum_metadata "sensor.energy" "kWh") = None ∧
  get_source (Helpers := Sample.helpers) "sensor.energy"
  = Ok (source (Sample.sum_metadata "sensor.energy" "kWh")).
Proof.
  apply (prepare_data_to_import_series (W := Sample.w) (H := Sample.helpers)
           (S := Sample.stat_helpers) "bdf.csv" Sample.call_same_id
           [ReadCsv "bdf.csv" (PStr ";") (PStr ",") (Some BDF_USECOLS)]
           Sample.same_id_stats TABLE "sensor.energy" _
           [SumPoint (Sample.at_ 1 1 2023 0 0) (PInt 7);
            SumPoint (Sample.at_ 1 1 2023 0 0) (PInt 2);
            SumPoint (Sample.at_ 1 1 2023 1 0) (PInt 8);
            SumPoint (Sample.at_ 1 1 2023 1 0) (PInt 4)]).
  - vm_compute. reflexivity.
  - vm_compute. reflexivity.
Defined.

Lemma handle_arguments_returns_witness :
  is_Ok (handle_arguments (W := Sample.w) "generic.csv" Sample.call_utc) ∧
  ¬ is_Ok (handle_arguments (W := Sample.w) "generic.csv" (Sample.call_of [])).
Proof.
  split.
  - apply (handle_arguments_returns (W := Sample.w) "generic.csv" Sample.call_utc).
    split; [reflexivity|]. exists "UTC". split; reflexivity.
  - intros Hok.
    apply (handle_arguments_returns (W := Sample.w) "generic.csv" (Sample.call_of []))
      in Hok as (_ & z & Hz & _).
    vm_compute in Hz. discriminate.
Defined.

(** ** Row order *)

Section RowOrder.
Context `{W : World} `{H : Helpers} `{S : StatHelpers}.

(** The points of a series follow the row order of the table.  In the
    generic layout the points of a series are the points built from its
    rows, one per row, in file order.  In the specialised layout with two
    different identifiers, the consumption series holds the consumption
    points of the rows and the supply series their supply points, one per
    row, in row order. *)
Theorem points_in_row_order :
  (∀ df tz fmt u (stats : Stats) k md pts,
     handle_dataframe df tz fmt u = Ok stats → stats !! k = Some (md, pts) →
     rows_of k (rows df) `sublist_of` rows df ∧
     ∃ timezone, ZoneInfo_new tz = Ok timezone ∧
       Forall2 (λ r p, row_stat (bool_decide ("mean" ∈ columns df)) timezone fmt r = Ok p)
         (rows_of k (rows df)) pts) ∧
  (∀ df tz fmt u c s uc us (stats : Stats),
     handle_dataframe_bdf df tz fmt u c s uc us = Ok stats → c ≠ s →
     ∃ timezone pairs md_c md_s,
       ZoneInfo_new tz = Ok timezone ∧
       Forall2 (bdf_stats timezone fmt) (rows df) pairs ∧
       stats !! c = Some (md_c, pairs.*1) ∧ stats !! s = Some (md_s, pairs.*2)).
Proof.
  split.
  - intros df tz fmt u stats k md pts Hdf Hk. split; [apply sublist_filter|].
    by destruct (handle_dataframe_series _ _ _ _ _ _ _ _ Hdf Hk) as (_ & _ & _ & _ & ?).
  - intros df tz fmt u c s uc us stats Hb Hne.
    apply handle_dataframe_bdf_series in Hb
      as (timezone & src_c & un_c & src_s & un_s & pairs & Hz & _ & _ & _ & _ & Hpairs
          & Hs & Hc & _).
    exists timezone, pairs. eexists _, _. repeat (split; [done|]).
    rewrite Hc, Hs by done.
    by rewrite bdf_points_consumption, bdf_points_supply.
Qed.

End RowOrder.

Lemma points_in_row_order_witness :
  (∃ timezone pairs md_c md_s,
     ZoneInfo_new (W := Sample.w) (PStr "UTC") = Ok timezone ∧
     Forall2 (bdf_stats (S := Sample.stat_helpers) timezone (PStr DATETIME_DEFAULT_FORMAT))
       (rows Sample.bdf_table) pairs ∧
     Sample.bdf_default_stats !! "sensor.energy_consumption" = Some (md_c, pairs.*1) ∧
     Sample.bdf_default_stats !! "sensor.energy_supply" = Some (md_s, pairs.*2)) ∧
  (rows_of "sensor.a" (rows Sample.two_sensor_df) `sublist_of` rows Sample.two_sensor_df ∧
   ∃ timezone,
     ZoneInfo_new (W := Sample.w) (PStr "UTC") = Ok timezone ∧
     Forall2 (λ r p, row_stat (S := Sample.stat_helpers)
                       (bool_decide ("mean" ∈ columns Sample.two_sensor_df))
                       timezone (PStr DATETIME_DEFAULT_FORMAT) r = Ok p)
       (rows_of "sensor.a" (rows Sample.two_sensor_df))
       [MeanPoint (Sample.at_ 1 1 2023 0 0) (PInt 1);
        MeanPoint (Sample.at_ 1 1 2023 2 0) (PInt 3)]).
Proof.
  destruct (points_in_row_order (W := Sample.w) (H := Sample.helpers)
              (S := Sample.stat_helpers)) as (Hgeneric & Hbdf).
  split.
  - apply (Hbdf Sample.bdf_table (PStr "UTC") (PStr DATETIME_DEFAULT_FORMAT) TABLE
             "sensor.energy_consumption" "sensor.energy_supply" (PStr "") (PStr "")
             Sample.bdf_default_stats).
    + vm_compute. reflexivity.
    + discriminate.
  - apply (Hgeneric Sample.two_sensor_df (PStr "UTC") (PStr DATETIME_DEFAULT_FORMAT) TABLE
             Sample.two_sensor_stats "sensor.a"
             {| has_mean := true; has_sum := false; source := "sensor";
                statistic_id := "sensor.a"; name := None;
                unit_of_measurement := PStr "kWh" |}).
    + vm_compute. reflexivity.
    + vm_compute. reflexivity.
Defined.
